(** * Monosynaptic reflex configuration: construction and validation

    A shallow embedding of [src/SpecializedBiologicalSystems/monosynaptic.py]
    (class [Monosynaptic]): the defaults and the override handling of
    [__init__], and the rule battery of [validate_input].

    Python dictionaries are finite maps ([gmap]); the one dictionary the
    validator iterates over with [.items()], the EES recruitment profile, is
    kept as the list of its items in insertion order.  Python floats are
    binary64 floats.  [validate_input] is written in a small state and
    exception monad over the object [self], the local [issues] buckets and
    the standard output. *)

From Stdlib Require Import PrimFloat ZArith List.
From stdpp Require Import gmap strings list.

Set Warnings "-inexact-float".

Open Scope string_scope.
Open Scope list_scope.
Open Scope Z_scope.

(** ** Physical quantities, as far as this module reads them *)

(** Exponents of the seven SI base dimensions (metre, kilogram, second,
    ampere, kelvin, mole, candela). *)
Record Dimension := mkDim {
  e_m : Z; e_kg : Z; e_s : Z; e_A : Z; e_K : Z; e_mol : Z; e_cd : Z
}.

#[global] Instance Dimension_eq_dec : EqDecision Dimension.
Proof. solve_decision. Defined.

Definition second_dim : Dimension := mkDim 0 0 1 0 0 0 0.
Definition volt_dim : Dimension := mkDim 2 1 (-3) (-1) 0 0 0.
Definition siemens_dim : Dimension := mkDim (-2) (-1) 3 2 0 0 0.
Definition farad_dim : Dimension := mkDim (-2) (-1) 4 2 0 0 0.

(** A unit: its symbol, its dimension and its decimal scale. *)
Record Unit := mkUnit { unit_name : string; unit_dim : Dimension; unit_scale : Z }.

Definition second : Unit := mkUnit "second" second_dim 0.
Definition volt : Unit := mkUnit "volt" volt_dim 0.
Definition siemens : Unit := mkUnit "siemens" siemens_dim 0.
Definition farad : Unit := mkUnit "farad" farad_dim 0.
Definition ms : Unit := mkUnit "ms" second_dim (-3).
Definition mV : Unit := mkUnit "mV" volt_dim (-3).
Definition nS : Unit := mkUnit "nS" siemens_dim (-9).
Definition nF : Unit := mkUnit "nF" farad_dim (-9).

(** The value of an expression [c * u]: the coefficient and the unit are
    kept apart, the module only ever reads the dimension. *)
Record Quantity := mkQuantity { coef : float; unit_of : Unit }.

Definition dim (q : Quantity) : Dimension := unit_dim (unit_of q).

(** What a caller may store under a biophysical parameter: a quantity, or a
    plain Python number, which has neither [.dim] nor [.unit]. *)
Inductive pyvalue :=
  | PQuantity (q : Quantity)
  | PFloat (x : float)
  | PInt (n : Z).

Notation "c *u u" := (PQuantity (mkQuantity c%float u)) (at level 40).

(** ** Exceptions *)

Inductive exn :=
  | ValueError (msg : string)
  | AttributeError (attr : string)
  | KeyError (key : string).

(** [value.dim] *)
Definition getattr_dim (v : pyvalue) : exn + Dimension :=
  match v with
  | PQuantity q => inr (dim q)
  | PFloat _ | PInt _ => inl (AttributeError "dim")
  end.

(** [d[key]] *)
Definition getitem {V} (d : gmap string V) (key : string) : exn + V :=
  match d !! key with
  | Some v => inr v
  | None => inl (KeyError key)
  end.

(** ** Strings *)

Definition nl : string := String (Ascii.ascii_of_nat 10) EmptyString.

(** [sep.join(l)] *)
Fixpoint join (sep : string) (l : list string) : string :=
  match l with
  | [] => ""
  | [x] => x
  | x :: rest => x +:+ sep +:+ join sep rest
  end.

(** What the f-strings of [validate_input] ask of the Python runtime and of
    the quantity library: the text of a set, of a unit and of a float. *)
Record Formatter := mkFormatter {
  repr_labels : gset string → string;
  repr_pairs : gset (string * string) → string;
  str_unit : Unit → string;
  str_float : float → string
}.

(** ** The data model *)

Record Connection := mkConnection { w : Quantity; p : float }.

Record ActivationState := mkActivationState {
  u0 : list float; c0 : list float; P0 : float; a0 : float
}.

Record OpenSimState := mkOpenSimState { state_file : string }.

Abbreviation EESParams := (gmap string float).
Abbreviation EESProfile := (list (string * gmap string float)).

(** [key in profile] for the item list of a dictionary. *)
Definition has_key {V} (key : string) (items : list (string * V)) : bool :=
  existsb (λ kv, bool_decide (kv.1 = key)) items.

Module Args.
(** The arguments of [Monosynaptic.__init__]; [None] is Python's [None]. *)
Record t := mk {
  reaction_time : pyvalue;
  biophysical_params : option (gmap string pyvalue);
  muscles_names : option (list string);
  associated_joint : string;
  custom_neurons : option (gmap string Z);
  custom_connections : option (gmap (string * string) Connection);
  custom_spindle : option (gmap string string);
  ees_recruitment_profile : option EESProfile;
  fast_type_mu : bool;
  custom_initial_potentials : option (gmap string pyvalue);
  custom_initial_condition_spike_activation : option (list (list ActivationState));
  initial_state_opensim : option OpenSimState
}.

(** The call [Monosynaptic()]: every argument at its declared default. *)
Definition defaults : t :=
  mk (25 *u ms) None None "ankle_angle_r" None None None None true None None None.
End Args.

Module BiologicalSystem.
Record t := mk {
  reaction_time : pyvalue;
  ees_recruitment_profile : EESProfile;
  biophysical_params : gmap string pyvalue;
  muscles_names : list string;
  number_muscles : Z;
  associated_joint : string;
  fast_type_mu : bool;
  initial_state_opensim : option OpenSimState
}.

(** Modelled from the spec: [BiologicalSystem.__init__] of [base_system.py],
    which is not part of the sources at hand.  The base provides the shared
    field layout (muscle list, joint, biophysical parameter dictionary,
    recruitment profile dictionary) and the muscle-count attribute the
    validator reads: it stores what it is given and counts the muscles. *)
Definition __init__ (reaction_time : pyvalue) (ees_recruitment_profile : EESProfile)
    (biophysical_params : gmap string pyvalue) (muscles_names : list string)
    (associated_joint : string) (fast_type_mu : bool)
    (initial_state_opensim : option OpenSimState) : t :=
  mk reaction_time ees_recruitment_profile biophysical_params muscles_names
     (Z.of_nat (length muscles_names)) associated_joint fast_type_mu
     initial_state_opensim.
End BiologicalSystem.

Record Monosynaptic := mkMonosynaptic {
  super : BiologicalSystem.t;
  neurons_population : gmap string Z;
  connections : gmap (string * string) Connection;
  spindle_model : gmap string string;
  initial_potentials : gmap string pyvalue;
  initial_condition_spike_activation : list (list ActivationState)
}.

(** Inherited attributes. *)
Definition number_muscles (s : Monosynaptic) : Z :=
  BiologicalSystem.number_muscles (super s).
Definition biophysical_params (s : Monosynaptic) : gmap string pyvalue :=
  BiologicalSystem.biophysical_params (super s).
Definition ees_recruitment_profile (s : Monosynaptic) : EESProfile :=
  BiologicalSystem.ees_recruitment_profile (super s).

(** ** [__init__], lines 21-96: defaults and overrides *)

Definition default_muscles_names : list string := ["soleus_r"].

Definition default_biophysical_params : gmap string pyvalue :=
  {[ "T_refr" := 5 *u ms;
     "Eleaky" := (-70) *u mV;
     "gL" := 10 *u nS;
     "Cm" := 0.3 *u nF;
     "E_ex" := 0 *u mV;
     "tau_e" := 0.5 *u ms;
     "threshold_v" := (-50) *u mV ]}.

Definition default_ees_recruitment_profile : EESProfile :=
  [ ("Ia", {[ "threshold_10pct" := 0.3%float; "saturation_90pct" := 0.7%float ]});
    ("MN", {[ "threshold_10pct" := 0.7%float; "saturation_90pct" := 0.9%float ]}) ].

Definition default_neurons_population : gmap string Z :=
  {[ "Ia" := 410; "MN" := 500 ]}.

Definition default_connections : gmap (string * string) Connection :=
  {[ ("Ia", "MN") := mkConnection (mkQuantity 2.1%float nS) 0.7%float ]}.

Definition default_spindle_model : gmap string string :=
  {[ "Ia" := "10+ 2*stretch + 4.3*sign(stretch_velocity)*abs(stretch_velocity)**0.6" ]}.

Definition zero_activation : ActivationState :=
  mkActivationState [0%float; 0%float] [0%float; 0%float] 0%float 0%float.

(** [x if arg is None else arg], the shape of lines 22-46. *)
Definition or_default {A} (arg : option A) (x : A) : A :=
  match arg with
  | None => x
  | Some given => given
  end.

(** [d.update(custom)] when [custom] is given: the keys of [custom] are
    written over [d]. *)
Definition update_with {K} `{Countable K} {V} (d : gmap K V) (custom : option (gmap K V)) : gmap K V :=
  match custom with
  | None => d
  | Some c => c ∪ d
  end.

(** [range(n)] has [max 0 n] elements. *)
Definition range_len (n : Z) : nat := Z.to_nat n.

(** The call of the base initialiser at lines 49-50, with the three
    defaulted arguments resolved. *)
Definition init_super (a : Args.t) : BiologicalSystem.t :=
  let muscles_names := or_default (Args.muscles_names a) default_muscles_names in
  let biophysical_params := or_default (Args.biophysical_params a) default_biophysical_params in
  let ees_recruitment_profile :=
    or_default (Args.ees_recruitment_profile a) default_ees_recruitment_profile in
  BiologicalSystem.__init__ (Args.reaction_time a) ees_recruitment_profile
    biophysical_params muscles_names (Args.associated_joint a) (Args.fast_type_mu a)
    (Args.initial_state_opensim a).

(** The object as it stands at line 97, before validation; a missing
    ['Eleaky'] or ['MN'] raises [KeyError] at line 81 or 93. *)
Definition init_fields (a : Args.t) : exn + Monosynaptic :=
  let base := init_super a in
  let neurons_population := update_with default_neurons_population (Args.custom_neurons a) in
  let connections := update_with default_connections (Args.custom_connections a) in
  let spindle_model := update_with default_spindle_model (Args.custom_spindle a) in
  match getitem (BiologicalSystem.biophysical_params base) "Eleaky" with
  | inl e => inl e
  | inr eleaky =>
    let initial_potentials :=
      or_default (Args.custom_initial_potentials a) {[ "MN" := eleaky ]} in
    match getitem neurons_population "MN" with
    | inl e => inl e
    | inr n_mn =>
      let initial_condition_spike_activation :=
        or_default (Args.custom_initial_condition_spike_activation a)
                   [ replicate (range_len n_mn) zero_activation ] in
      inr (mkMonosynaptic base neurons_population connections spindle_model
             initial_potentials initial_condition_spike_activation)
    end
  end.

(** ** The state and exception monad of [validate_input] *)

(** The two buckets of the local dictionary [issues]. *)
Record Issues := mkIssues { warnings : list string; errors : list string }.

(** What a call can read or write: the object, its local [issues], and the
    lines printed so far. *)
Record Machine := mkMachine { obj : Monosynaptic; issues : Issues; stdout : list string }.

Definition Py (A : Type) : Type := Machine → (exn + A) * Machine.

#[global] Instance Py_ret : MRet Py := λ A x m, (inr x, m).

#[global] Instance Py_bind : MBind Py := λ A B k c m,
  match c m with
  | (inr x, m') => k x m'
  | (inl e, m') => (inl e, m')
  end.

Definition raise {A} (e : exn) : Py A := λ m, (inl e, m).

Definition lift {A} (r : exn + A) : Py A := λ m, (r, m).

Definition get_self : Py Monosynaptic := λ m, (inr (obj m), m).

Definition get_issues : Py Issues := λ m, (inr (issues m), m).

(** [issues = {"warnings": [], "errors": []}] *)
Definition new_issues : Py unit :=
  λ m, (inr tt, mkMachine (obj m) (mkIssues [] []) (stdout m)).

(** [issues["errors"].append(msg)] *)
Definition append_error (msg : string) : Py unit :=
  λ m, (inr tt, mkMachine (obj m)
                  (mkIssues (warnings (issues m)) (errors (issues m) ++ [msg]))
                  (stdout m)).

(** [issues["warnings"].append(msg)] *)
Definition append_warning (msg : string) : Py unit :=
  λ m, (inr tt, mkMachine (obj m)
                  (mkIssues (warnings (issues m) ++ [msg]) (errors (issues m)))
                  (stdout m)).

(** [print(text)] *)
Definition print (text : string) : Py unit :=
  λ m, (inr tt, mkMachine (obj m) (issues m) (stdout m ++ [text])).

(** [if b: c] *)
Definition when (b : bool) (c : Py unit) : Py unit :=
  if b then c else mret tt.

(** [for x in l: body] *)
Fixpoint for_ {A} (l : list A) (body : A → Py unit) : Py unit :=
  match l with
  | [] => mret tt
  | x :: rest => body x ;; for_ rest body
  end.

(** Truth value of a set and of a list. *)
Definition nonempty_set {K} `{Countable K} (X : gset K) : bool :=
  negb (bool_decide (X = ∅)).

Definition nonempty_list {A} (l : list A) : bool :=
  match l with
  | [] => false
  | _ :: _ => true
  end.

(** ** [validate_input], lines 101-204 *)

Definition required_neurons : gset string := {[ "Ia"; "MN" ]}.

Definition required_connections : gset (string * string) := {[ ("Ia", "MN") ]}.

Definition required_params : list string :=
  ["T_refr"; "Eleaky"; "gL"; "Cm"; "E_ex"; "tau_e"; "threshold_v"].

Definition expected_units : list (string * Unit) :=
  [ ("T_refr", second); ("Eleaky", volt); ("gL", siemens); ("Cm", farad);
    ("E_ex", volt); ("tau_e", second); ("threshold_v", volt) ].

Definition required_ees_params : list string := ["threshold_10pct"; "saturation_90pct"].

(** [0 <= x <= 1] on floats. *)
Definition in_unit_interval (x : float) : bool := PrimFloat.leb 0 x && PrimFloat.leb x 1.

Section Validation.
Context (fmt : Formatter).

(** [value.unit]: a quantity of the library carries [dim] and has no
    attribute [unit]; a plain number has none either.  The read raises. *)
Definition getattr_unit (v : pyvalue) : exn + Unit :=
  match v with
  | PQuantity _ | PFloat _ | PInt _ => inl (AttributeError "unit")
  end.

Definition msg_muscle_count : string :=
  "Monosynaptic reflex should have exactly 1 muscle".

Definition msg_missing_neurons (missing : gset string) : string :=
  "Missing required neuron types for monosynaptic reflex: " +:+ repr_labels fmt missing.

Definition msg_unexpected_neurons (unexpected : gset string) : string :=
  "Unexpected neuron types for monosynaptic reflex: " +:+ repr_labels fmt unexpected.

Definition msg_missing_connections (missing : gset (string * string)) : string :=
  "Missing required connections for monosynaptic reflex: " +:+ repr_pairs fmt missing.

Definition msg_missing_spindle : string :=
  "Missing Ia equation in spindle model for monosynaptic reflex".

Definition msg_missing_ees (neuron_type : string) : string :=
  "Missing EES recruitment parameters for neuron type '" +:+ neuron_type +:+ "'".

Definition msg_inhibitory : string :=
  "Inhibitory parameters present but no inhibitory neurons in monosynaptic reflex".

Definition msg_missing_param (param : string) : string :=
  "Missing mandatory biophysical parameter: '" +:+ param +:+ "'".

Definition msg_unit (param : string) (expected_unit : Unit) (value_unit : string) : string :=
  "Parameter '" +:+ param +:+ "' has incorrect unit. "
  +:+ "Expected unit compatible with " +:+ str_unit fmt expected_unit
  +:+ ", but got " +:+ value_unit.

Definition msg_missing_ees_param (param neuron_type : string) : string :=
  "Missing '" +:+ param +:+ "' in EES recruitment parameters for '" +:+ neuron_type +:+ "'".

Definition msg_ees_range (neuron_type : string) (threshold saturation : float) : string :=
  "EES parameters for '" +:+ neuron_type +:+ "' must be between 0 and 1. "
  +:+ "Got: threshold=" +:+ str_float fmt threshold
  +:+ ", saturation=" +:+ str_float fmt saturation.

Definition msg_ees_order (neuron_type : string) : string :=
  "Threshold must be less than saturation for '" +:+ neuron_type +:+ "'".

(** Lines 110-112. *)
Definition check_muscle_count : Py unit :=
  self ← get_self;
  when (negb (number_muscles self =? 1)) (append_error msg_muscle_count).

(** Lines 114-125. *)
Definition check_neuron_types : Py unit :=
  self ← get_self;
  let defined_neurons := dom (neurons_population self) in
  let missing_neurons := required_neurons ∖ defined_neurons in
  when (nonempty_set missing_neurons) (append_error (msg_missing_neurons missing_neurons));;
  let unexpected_neurons := defined_neurons ∖ required_neurons in
  when (nonempty_set unexpected_neurons)
       (append_warning (msg_unexpected_neurons unexpected_neurons)).

(** Lines 127-133. *)
Definition check_connections : Py unit :=
  self ← get_self;
  let defined_connections := dom (connections self) in
  let missing_connections := required_connections ∖ defined_connections in
  when (nonempty_set missing_connections)
       (append_error (msg_missing_connections missing_connections)).

(** Lines 135-137. *)
Definition check_spindle : Py unit :=
  self ← get_self;
  when (negb (bool_decide (is_Some (spindle_model self !! "Ia"))))
       (append_error msg_missing_spindle).

(** Lines 139-142. *)
Definition check_ees_types : Py unit :=
  self ← get_self;
  for_ ["Ia"; "MN"] (λ neuron_type,
    when (negb (has_key neuron_type (ees_recruitment_profile self)))
         (append_error (msg_missing_ees neuron_type))).

(** Lines 144-146. *)
Definition check_inhibitory : Py unit :=
  self ← get_self;
  when (bool_decide (is_Some (biophysical_params self !! "E_inh"))
        || bool_decide (is_Some (biophysical_params self !! "tau_i")))
       (append_warning msg_inhibitory).

(** Lines 148-152. *)
Definition check_mandatory_params : Py unit :=
  self ← get_self;
  for_ required_params (λ param,
    when (negb (bool_decide (is_Some (biophysical_params self !! param))))
         (append_error (msg_missing_param param))).

(** Lines 165-172, one round of the loop.  The f-string of lines 170-171
    reads [value.unit] before [append] is called. *)
Definition check_unit (param : string) (expected_unit : Unit) : Py unit :=
  self ← get_self;
  match biophysical_params self !! param with
  | Some value =>
    value_dim ← lift (getattr_dim value);
    when (negb (bool_decide (value_dim = unit_dim expected_unit)))
         (value_unit ← lift (getattr_unit value);
          append_error (msg_unit param expected_unit (str_unit fmt value_unit)))
  | None => mret tt
  end.

(** Lines 154-172. *)
Definition check_units : Py unit :=
  for_ expected_units (λ '(param, expected_unit), check_unit param expected_unit).

(** Lines 176-192, one round of the loop. *)
Definition check_ees_entry (neuron_type : string) (params : gmap string float) : Py unit :=
  when (bool_decide (neuron_type ∈ ["Ia"; "MN"]))
    (for_ required_ees_params (λ param,
       when (negb (bool_decide (is_Some (params !! param))))
            (append_error (msg_missing_ees_param param neuron_type)));;
     match params !! "threshold_10pct", params !! "saturation_90pct" with
     | Some threshold, Some saturation =>
       when (negb (in_unit_interval threshold) || negb (in_unit_interval saturation))
            (append_error (msg_ees_range neuron_type threshold saturation));;
       when (PrimFloat.leb saturation threshold)
            (append_error (msg_ees_order neuron_type))
     | _, _ => mret tt
     end).

(** Lines 174-192. *)
Definition check_ees_params : Py unit :=
  self ← get_self;
  for_ (ees_recruitment_profile self)
       (λ '(neuron_type, params), check_ees_entry neuron_type params).

Definition msg_errors (errs : list string) : string :=
  "Monosynaptic configuration errors:" +:+ nl +:+ join nl errs.

Definition msg_warnings (warns : list string) : string :=
  "WARNING: Monosynaptic configuration issues:" +:+ nl +:+ join nl warns.

(** Lines 194-204. *)
Definition report : Py bool :=
  found ← get_issues;
  if nonempty_list (errors found)
  then raise (ValueError (msg_errors (errors found)))
  else
    when (nonempty_list (warnings found)) (print (msg_warnings (warnings found)));;
    mret true.

(** Lines 108-192: every rule in turn, each adding to [issues]. *)
Definition rule_battery : Py unit :=
  new_issues;;
  check_muscle_count;;
  check_neuron_types;;
  check_connections;;
  check_spindle;;
  check_ees_types;;
  check_inhibitory;;
  check_mandatory_params;;
  check_units;;
  check_ees_params.

Definition validate_input : Py bool :=
  rule_battery;;
  report.

(** [Monosynaptic(...)]: the fields, then [self.validate_input()] at line
    99; the object exists for the caller only when validation returns. *)
Definition __init__ (a : Args.t) (out : list string) : (exn + Monosynaptic) * list string :=
  match init_fields a with
  | inl e => (inl e, out)
  | inr self =>
    match validate_input (mkMachine self (mkIssues [] []) out) with
    | (inl e, m) => (inl e, stdout m)
    | (inr _, m) => (inr (obj m), stdout m)
    end
  end.

End Validation.

(** A formatter to run the definitions with: sets are printed in the order
    of [elements], units by their symbol, floats as a fixed tag. *)
Definition show_labels (X : gset string) : string :=
  "{" +:+ join ", " (map (λ x, "'" +:+ x +:+ "'") (elements X)) +:+ "}".

Definition show_pairs (X : gset (string * string)) : string :=
  "{" +:+ join ", " (map (λ xy, "('" +:+ xy.1 +:+ "', '" +:+ xy.2 +:+ "')") (elements X)) +:+ "}".

Definition sample_fmt : Formatter :=
  mkFormatter show_labels show_pairs unit_name (λ _, "<float>").


(** ** Calls used in the examples: one argument given, the rest defaulted *)

(** [Monosynaptic(biophysical_params=bp)] *)
Definition call_biophysical_params (bp : gmap string pyvalue) : Args.t :=
  Args.mk (25 *u ms) (Some bp) None "ankle_angle_r" None None None None true None None None.

(** [Monosynaptic(ees_recruitment_profile=profile)] *)
Definition call_ees_profile (profile : EESProfile) : Args.t :=
  Args.mk (25 *u ms) None None "ankle_angle_r" None None None (Some profile) true None None None.

(** [Monosynaptic(muscles_names=names)] *)
Definition call_muscles_names (names : list string) : Args.t :=
  Args.mk (25 *u ms) None (Some names) "ankle_angle_r" None None None None true None None None.

(** [Monosynaptic(custom_neurons=neurons)] *)
Definition call_custom_neurons (neurons : gmap string Z) : Args.t :=
  Args.mk (25 *u ms) None None "ankle_angle_r" (Some neurons) None None None true None None None.

(** The object line 97 sees when only arguments of the base were given,
    written out; [Monosynaptic()] builds [default_object]. *)
Definition object_with (base : BiologicalSystem.t) : Monosynaptic :=
  mkMonosynaptic base default_neurons_population default_connections
    default_spindle_model {[ "MN" := (-70) *u mV ]} [ replicate 500%nat zero_activation ].

Definition default_object : Monosynaptic := object_with (init_super Args.defaults).

(** Two muscles, everything else defaulted. *)
Definition two_muscles_object : Monosynaptic :=
  object_with (init_super (call_muscles_names ["soleus_r"; "tibialis_r"])).

(** ['T_refr'] given as a voltage, [5*mV], over the defaults. *)
Definition T_refr_in_mV : gmap string pyvalue :=
  <[ "T_refr" := 5 *u mV ]> default_biophysical_params.

(** ['T_refr'] given as the plain integer [5], over the defaults. *)
Definition T_refr_plain : gmap string pyvalue :=
  <[ "T_refr" := PInt 5 ]> default_biophysical_params.

(** ['tau_e'] given as a voltage, [0.5*mV], over the defaults. *)
Definition tau_e_in_mV : gmap string pyvalue :=
  <[ "tau_e" := 0.5 *u mV ]> default_biophysical_params.

(** [Monosynaptic(muscles_names=names, biophysical_params=bp)] *)
Definition call_muscles_and_params (names : list string) (bp : gmap string pyvalue) : Args.t :=
  Args.mk (25 *u ms) (Some bp) (Some names) "ankle_angle_r" None None None None true
          None None None.

(** Two muscles and ['tau_e'] as a voltage. *)
Definition two_muscles_tau_e_object : Monosynaptic :=
  object_with (init_super (call_muscles_and_params ["soleus_r"; "tibialis_r"] tau_e_in_mV)).


(** A machine about to validate [s], nothing printed yet. *)
Definition fresh (s : Monosynaptic) : Machine := mkMachine s (mkIssues [] []) [].

(** [profile[key]] for the item list of a dictionary. *)
Definition lookup_key {V} (key : string) (items : list (string * V)) : option V :=
  snd <$> find (λ kv, bool_decide (kv.1 = key)) items.

(** The two recruitment bounds of a neuron type, when both are there. *)
Definition recruitment_range (profile : EESProfile) (neuron_type : string) : option (float * float) :=
  params ← lookup_key neuron_type profile;
  threshold ← params !! "threshold_10pct";
  saturation ← params !! "saturation_90pct";
  Some (threshold, saturation).

(** ** What each rule finds, as a function of the object

    The lists below restate the rules without the monad; the run lemmas of
    the next part show that [validate_input] appends exactly these. *)

Definition add_findings (ws es : list string) (m : Machine) : Machine :=
  mkMachine (obj m)
            (mkIssues (warnings (issues m) ++ ws) (errors (issues m) ++ es))
            (stdout m).

Section Findings.
Context (fmt : Formatter).

Definition muscle_errors (s : Monosynaptic) : list string :=
  if number_muscles s =? 1 then [] else [msg_muscle_count].

Definition missing_neurons (s : Monosynaptic) : gset string :=
  required_neurons ∖ dom (neurons_population s).

Definition unexpected_neurons (s : Monosynaptic) : gset string :=
  dom (neurons_population s) ∖ required_neurons.

Definition missing_connections (s : Monosynaptic) : gset (string * string) :=
  required_connections ∖ dom (connections s).

Definition neuron_errors (s : Monosynaptic) : list string :=
  if nonempty_set (missing_neurons s) then [msg_missing_neurons fmt (missing_neurons s)] else [].

Definition neuron_warnings (s : Monosynaptic) : list string :=
  if nonempty_set (unexpected_neurons s)
  then [msg_unexpected_neurons fmt (unexpected_neurons s)] else [].

Definition connection_errors (s : Monosynaptic) : list string :=
  if nonempty_set (missing_connections s)
  then [msg_missing_connections fmt (missing_connections s)] else [].

Definition spindle_errors (s : Monosynaptic) : list string :=
  match spindle_model s !! "Ia" with
  | Some _ => []
  | None => [msg_missing_spindle]
  end.

Definition ees_type_errors (s : Monosynaptic) : list string :=
  flat_map (λ neuron_type,
              if has_key neuron_type (ees_recruitment_profile s) then []
              else [msg_missing_ees neuron_type])
           ["Ia"; "MN"].

Definition inhibitory_warnings (s : Monosynaptic) : list string :=
  match biophysical_params s !! "E_inh", biophysical_params s !! "tau_i" with
  | None, None => []
  | _, _ => [msg_inhibitory]
  end.

Definition mandatory_errors (s : Monosynaptic) : list string :=
  flat_map (λ param,
              match biophysical_params s !! param with
              | Some _ => []
              | None => [msg_missing_param param]
              end)
           required_params.

(** One round of the units loop: the exception that ends the call, if
    any.  A round that returns has appended nothing: a plain number stops
    it at [value.dim], a quantity of another dimension at [value.unit]. *)
Definition unit_stop (s : Monosynaptic) (param : string) (expected_unit : Unit)
    : option exn :=
  match biophysical_params s !! param with
  | Some (PQuantity q) =>
    if bool_decide (dim q = unit_dim expected_unit) then None
    else Some (AttributeError "unit")
  | Some _ => Some (AttributeError "dim")
  | None => None
  end.

(** The units loop over [table]: the exception of the first round that
    raises, if any. *)
Fixpoint units_scan (s : Monosynaptic) (table : list (string * Unit)) : option exn :=
  match table with
  | [] => None
  | (param, expected_unit) :: rest =>
    match unit_stop s param expected_unit with
    | Some e => Some e
    | None => units_scan s rest
    end
  end.

Definition ees_entry_errors (neuron_type : string) (params : gmap string float) : list string :=
  if bool_decide (neuron_type ∈ ["Ia"; "MN"]) then
    flat_map (λ param,
                match params !! param with
                | Some _ => []
                | None => [msg_missing_ees_param param neuron_type]
                end)
             required_ees_params
    ++ match params !! "threshold_10pct", params !! "saturation_90pct" with
       | Some threshold, Some saturation =>
         (if negb (in_unit_interval threshold) || negb (in_unit_interval saturation)
          then [msg_ees_range fmt neuron_type threshold saturation] else [])
         ++ (if PrimFloat.leb saturation threshold then [msg_ees_order neuron_type] else [])
       | _, _ => []
       end
  else [].

Definition ees_param_errors (s : Monosynaptic) : list string :=
  flat_map (λ '(neuron_type, params), ees_entry_errors neuron_type params)
           (ees_recruitment_profile s).

(** Everything found before the units loop. *)
Definition early_errors (s : Monosynaptic) : list string :=
  muscle_errors s ++ neuron_errors s ++ connection_errors s ++ spindle_errors s
  ++ ees_type_errors s ++ mandatory_errors s.

Definition all_warnings (s : Monosynaptic) : list string :=
  neuron_warnings s ++ inhibitory_warnings s.

(** No expected parameter of [s] is a quantity of another dimension than
    expected. *)
Definition quantities_match (s : Monosynaptic) : bool :=
  forallb (λ '(param, expected_unit),
             match biophysical_params s !! param with
             | Some (PQuantity q) => bool_decide (dim q = unit_dim expected_unit)
             | _ => true
             end)
          expected_units.

(** The units loop lets [s] through: every expected parameter that is
    present is a quantity of the expected dimension. *)
Definition units_pass (s : Monosynaptic) : bool :=
  forallb (λ '(param, expected_unit),
             match biophysical_params s !! param with
             | Some (PQuantity q) => bool_decide (dim q = unit_dim expected_unit)
             | Some _ => false
             | None => true
             end)
          expected_units.

(** Every rule of the error bucket that [s] violates and that collects
    (all but the units loop) has its message in [errs]. *)
Definition rules_reported (s : Monosynaptic) (errs : list string) : Prop :=
  (number_muscles s ≠ 1 → msg_muscle_count ∈ errs)
  ∧ (missing_neurons s ≠ ∅ → msg_missing_neurons fmt (missing_neurons s) ∈ errs)
  ∧ (missing_connections s ≠ ∅ →
     msg_missing_connections fmt (missing_connections s) ∈ errs)
  ∧ (spindle_model s !! "Ia" = None → msg_missing_spindle ∈ errs)
  ∧ (∀ neuron_type, neuron_type ∈ ["Ia"; "MN"] →
       has_key neuron_type (ees_recruitment_profile s) = false →
       msg_missing_ees neuron_type ∈ errs)
  ∧ (∀ param, param ∈ required_params →
       biophysical_params s !! param = None →
       msg_missing_param param ∈ errs)
  ∧ (∀ neuron_type params, (neuron_type, params) ∈ ees_recruitment_profile s →
       neuron_type ∈ ["Ia"; "MN"] →
       (∀ param, param ∈ required_ees_params → params !! param = None →
          msg_missing_ees_param param neuron_type ∈ errs)
       ∧ (∀ threshold saturation,
            params !! "threshold_10pct" = Some threshold →
            params !! "saturation_90pct" = Some saturation →
            (in_unit_interval threshold && in_unit_interval saturation = false →
             msg_ees_range fmt neuron_type threshold saturation ∈ errs)
            ∧ (PrimFloat.leb saturation threshold = true →
               msg_ees_order neuron_type ∈ errs))).

End Findings.

(** ** What the validator accepts, and what it reads *)

(** An entry of the profile passes lines 176-192: another neuron type, or
    both sub-fields present, both in [0,1], and not [threshold >= saturation]. *)
Definition entry_accepted (neuron_type : string) (params : gmap string float) : bool :=
  if bool_decide (neuron_type ∈ ["Ia"; "MN"]) then
    match params !! "threshold_10pct", params !! "saturation_90pct" with
    | Some threshold, Some saturation =>
      in_unit_interval threshold && in_unit_interval saturation
      && negb (PrimFloat.leb saturation threshold)
    | _, _ => false
    end
  else true.

(** A row of the expected-units table passes lines 150-172: the parameter
    is present, carries a dimension, and the dimension is the expected one. *)
Definition param_accepted (bp : gmap string pyvalue) (row : string * Unit) : bool :=
  match bp !! row.1 with
  | Some (PQuantity q) => bool_decide (dim q = unit_dim row.2)
  | _ => false
  end.

(** No rule of the error bucket fires on [s]. *)
Definition accepted (s : Monosynaptic) : bool :=
  (number_muscles s =? 1)
  && bool_decide (required_neurons ⊆ dom (neurons_population s))
  && bool_decide (("Ia", "MN") ∈ dom (connections s))
  && bool_decide (is_Some (spindle_model s !! "Ia"))
  && (has_key "Ia" (ees_recruitment_profile s) && has_key "MN" (ees_recruitment_profile s))
  && forallb (param_accepted (biophysical_params s)) expected_units
  && forallb (λ '(neuron_type, params), entry_accepted neuron_type params)
             (ees_recruitment_profile s).


(** The object [s] with another recruitment profile. *)
Definition with_profile (s : Monosynaptic) (profile : EESProfile) : Monosynaptic :=
  let base := super s in
  mkMonosynaptic
    (BiologicalSystem.mk (BiologicalSystem.reaction_time base) profile
       (BiologicalSystem.biophysical_params base) (BiologicalSystem.muscles_names base)
       (BiologicalSystem.number_muscles base) (BiologicalSystem.associated_joint base)
       (BiologicalSystem.fast_type_mu base) (BiologicalSystem.initial_state_opensim base))
    (neurons_population s) (connections s) (spindle_model s)
    (initial_potentials s) (initial_condition_spike_activation s).

(** Two muscles and no ['MN'] entry in the recruitment profile. *)
Definition two_muscles_no_MN_object : Monosynaptic :=
  with_profile two_muscles_object
    [ ("Ia", {[ "threshold_10pct" := 0.3%float; "saturation_90pct" := 0.7%float ]}) ].

(** [Monosynaptic(biophysical_params=bp, custom_initial_potentials=potentials)] *)
Definition call_params_and_potentials (bp potentials : gmap string pyvalue) : Args.t :=
  Args.mk (25 *u ms) (Some bp) None "ankle_angle_r" None None None None true
          (Some potentials) None None.

(** [Monosynaptic(custom_connections=given)] *)
Definition call_custom_connections (given : gmap (string * string) Connection) : Args.t :=
  Args.mk (25 *u ms) None None "ankle_angle_r" None (Some given) None None true None None None.

(** To show [x ∈ l1 ++ ... ++ ln], show [x ∈ part] for one of the [li]. *)
Ltac in_part part :=
  match goal with
  | |- ?x ∈ _ => cut (x ∈ part); [rewrite !elem_of_app; tauto|]
  end.

(** ** Run lemmas: what the monad's operations and the rules do to a machine *)

Lemma bind_run {A B} (c : Py A) (k : A → Py B) (m : Machine) :
  (c ≫= k) m = match c m with
               | (inr x, m') => k x m'
               | (inl e, m') => (inl e, m')
               end.
Proof. reflexivity. Qed.

Lemma get_self_run {B} (k : Monosynaptic → Py B) (m : Machine) :
  (get_self ≫= k) m = k (obj m) m.
Proof. reflexivity. Qed.

Lemma get_issues_run {B} (k : Issues → Py B) (m : Machine) :
  (get_issues ≫= k) m = k (issues m) m.
Proof. reflexivity. Qed.

Lemma add_findings_nil (m : Machine) : add_findings [] [] m = m.
Proof.
  destruct m as [o [ws es] out]. unfold add_findings. simpl.
  by rewrite !app_nil_r.
Qed.

Lemma add_findings_add (ws ws' es es' : list string) (m : Machine) :
  add_findings ws' es' (add_findings ws es m) = add_findings (ws ++ ws') (es ++ es') m.
Proof. unfold add_findings. simpl. by rewrite !app_assoc. Qed.

Lemma append_error_run (msg : string) (m : Machine) :
  append_error msg m = (inr tt, add_findings [] [msg] m).
Proof. unfold append_error, add_findings. by rewrite app_nil_r. Qed.

Lemma append_warning_run (msg : string) (m : Machine) :
  append_warning msg m = (inr tt, add_findings [msg] [] m).
Proof. unfold append_warning, add_findings. by rewrite app_nil_r. Qed.

Lemma when_error_run (b : bool) (msg : string) (m : Machine) :
  when b (append_error msg) m = (inr tt, add_findings [] (if b then [msg] else []) m).
Proof. destruct b; simpl; [apply append_error_run | by rewrite add_findings_nil]. Qed.

Lemma when_warning_run (b : bool) (msg : string) (m : Machine) :
  when b (append_warning msg) m = (inr tt, add_findings (if b then [msg] else []) [] m).
Proof. destruct b; simpl; [apply append_warning_run | by rewrite add_findings_nil]. Qed.

(** A loop whose every round only appends errors appends them all, in order. *)
Lemma for_errors_run {A} (body : A → Py unit) (found : A → list string) (l : list A) :
  (∀ x m, body x m = (inr tt, add_findings [] (found x) m)) →
  ∀ m, for_ l body m = (inr tt, add_findings [] (flat_map found l) m).
Proof.
  intros Hbody. induction l as [|x l IH]; intros m; simpl.
  - by rewrite add_findings_nil.
  - rewrite bind_run, Hbody, IH, add_findings_add. reflexivity.
Qed.

Section Runs.
Context (fmt : Formatter).

Lemma check_muscle_count_run (m : Machine) :
  check_muscle_count m = (inr tt, add_findings [] (muscle_errors (obj m)) m).
Proof.
  unfold check_muscle_count, muscle_errors. rewrite bind_run. simpl.
  rewrite when_error_run. by destruct (number_muscles (obj m) =? 1).
Qed.

Lemma check_neuron_types_run (m : Machine) :
  check_neuron_types fmt m
  = (inr tt, add_findings (neuron_warnings fmt (obj m)) (neuron_errors fmt (obj m)) m).
Proof.
  unfold check_neuron_types, neuron_warnings, neuron_errors. rewrite bind_run. simpl.
  rewrite bind_run, when_error_run, when_warning_run, add_findings_add, app_nil_r.
  reflexivity.
Qed.

Lemma check_connections_run (m : Machine) :
  check_connections fmt m = (inr tt, add_findings [] (connection_errors fmt (obj m)) m).
Proof.
  unfold check_connections, connection_errors. rewrite bind_run. simpl.
  by rewrite when_error_run.
Qed.

Lemma check_spindle_run (m : Machine) :
  check_spindle m = (inr tt, add_findings [] (spindle_errors (obj m)) m).
Proof.
  unfold check_spindle, spindle_errors. rewrite bind_run. simpl.
  rewrite when_error_run. by destruct (spindle_model (obj m) !! "Ia").
Qed.

Lemma check_ees_types_run (m : Machine) :
  check_ees_types m = (inr tt, add_findings [] (ees_type_errors (obj m)) m).
Proof.
  unfold check_ees_types, ees_type_errors. rewrite get_self_run.
  apply for_errors_run. intros x m'. rewrite when_error_run.
  by destruct (has_key x _).
Qed.

Lemma check_inhibitory_run (m : Machine) :
  check_inhibitory m = (inr tt, add_findings (inhibitory_warnings (obj m)) [] m).
Proof.
  unfold check_inhibitory, inhibitory_warnings. rewrite bind_run. simpl.
  rewrite when_warning_run.
  by destruct (biophysical_params (obj m) !! "E_inh"), (biophysical_params (obj m) !! "tau_i").
Qed.

Lemma check_mandatory_params_run (m : Machine) :
  check_mandatory_params m = (inr tt, add_findings [] (mandatory_errors (obj m)) m).
Proof.
  unfold check_mandatory_params, mandatory_errors. rewrite get_self_run.
  apply for_errors_run. intros x m'. rewrite when_error_run.
  by destruct (biophysical_params (obj m) !! x).
Qed.

Lemma check_unit_run (param : string) (expected_unit : Unit) (m : Machine) :
  check_unit fmt param expected_unit m
  = match unit_stop (obj m) param expected_unit with
    | None => (inr tt, m)
    | Some e => (inl e, m)
    end.
Proof.
  unfold check_unit, unit_stop. rewrite get_self_run.
  destruct (biophysical_params (obj m) !! param) as [[q|x|n]|]; try reflexivity.
  rewrite bind_run. unfold lift at 1. simpl getattr_dim. cbv beta iota.
  by destruct (bool_decide (dim q = unit_dim expected_unit)).
Qed.


Lemma check_units_table_run (table : list (string * Unit)) (m : Machine) :
  for_ table (λ '(param, expected_unit), check_unit fmt param expected_unit) m
  = match units_scan (obj m) table with
    | None => (inr tt, m)
    | Some e => (inl e, m)
    end.
Proof.
  induction table as [|[param expected_unit] table IH]; simpl; [done|].
  rewrite bind_run, check_unit_run.
  by destruct (unit_stop (obj m) param expected_unit).
Qed.


Lemma check_units_run (m : Machine) :
  check_units fmt m
  = match units_scan (obj m) expected_units with
    | None => (inr tt, m)
    | Some e => (inl e, m)
    end.
Proof. apply check_units_table_run. Qed.


Lemma check_ees_entry_run (neuron_type : string) (params : gmap string float) (m : Machine) :
  check_ees_entry fmt neuron_type params m
  = (inr tt, add_findings [] (ees_entry_errors fmt neuron_type params) m).
Proof.
  unfold check_ees_entry, ees_entry_errors.
  destruct (bool_decide (neuron_type ∈ ["Ia"; "MN"])).
  2: { simpl. unfold mret, Py_ret. by rewrite add_findings_nil. }
  change (when true ?c) with c. rewrite bind_run.
  rewrite (for_errors_run _
             (λ param, match params !! param with
                       | Some _ => []
                       | None => [msg_missing_ees_param param neuron_type]
                       end)).
  2: { intros x m'. rewrite when_error_run. by destruct (params !! x). }
  destruct (params !! "threshold_10pct") as [threshold|],
           (params !! "saturation_90pct") as [saturation|];
    rewrite ?bind_run, ?when_error_run; unfold mret, Py_ret;
    rewrite ?add_findings_add, ?app_nil_r; reflexivity.
Qed.

Lemma check_ees_params_run (m : Machine) :
  check_ees_params fmt m = (inr tt, add_findings [] (ees_param_errors fmt (obj m)) m).
Proof.
  unfold check_ees_params, ees_param_errors. rewrite get_self_run.
  apply for_errors_run. intros [neuron_type params] m'. apply check_ees_entry_run.
Qed.

Lemma report_run (m : Machine) :
  report m
  = if nonempty_list (errors (issues m))
    then (inl (ValueError (msg_errors (errors (issues m)))), m)
    else (inr true,
          if nonempty_list (warnings (issues m))
          then mkMachine (obj m) (issues m) (stdout m ++ [msg_warnings (warnings (issues m))])
          else m).
Proof.
  unfold report. rewrite get_issues_run.
  destruct (nonempty_list (errors (issues m))); [reflexivity|].
  rewrite bind_run. by destruct (nonempty_list (warnings (issues m))).
Qed.

(** The machine the rules leave behind, and whether the units loop let
    them finish. *)
Lemma rule_battery_run (m : Machine) :
  rule_battery fmt m
  = let s := obj m in
    let found es := mkMachine s (mkIssues (all_warnings fmt s) es) (stdout m) in
    match units_scan s expected_units with
    | Some e => (inl e, found (early_errors fmt s))
    | None => (inr tt, found (early_errors fmt s ++ ees_param_errors fmt s))
    end.
Proof.
  unfold rule_battery.
  rewrite bind_run. unfold new_issues at 1. cbv beta iota.
  rewrite bind_run, check_muscle_count_run.
  rewrite bind_run, check_neuron_types_run, add_findings_add.
  rewrite bind_run, check_connections_run, add_findings_add.
  rewrite bind_run, check_spindle_run, add_findings_add.
  rewrite bind_run, check_ees_types_run, add_findings_add.
  rewrite bind_run, check_inhibitory_run, add_findings_add.
  rewrite bind_run, check_mandatory_params_run, add_findings_add.
  rewrite bind_run, check_units_run. simpl obj.
  rewrite !app_nil_r, <- !app_assoc. simpl app at 1.
  fold (all_warnings fmt (obj m)). fold (early_errors fmt (obj m)).
  destruct (units_scan (obj m) expected_units) as [e|]; [reflexivity|].
  rewrite check_ees_params_run, !add_findings_add. simpl.
  rewrite ?app_nil_r. reflexivity.
Qed.

Lemma validate_input_run (m : Machine) :
  validate_input fmt m
  = let s := obj m in
    let found es := mkMachine s (mkIssues (all_warnings fmt s) es) (stdout m) in
    match units_scan s expected_units with
    | Some e => (inl e, found (early_errors fmt s))
    | None =>
      let errs := early_errors fmt s ++ ees_param_errors fmt s in
      if nonempty_list errs
      then (inl (ValueError (msg_errors errs)), found errs)
      else (inr true,
            if nonempty_list (all_warnings fmt s)
            then mkMachine s (mkIssues (all_warnings fmt s) errs)
                           (stdout m ++ [msg_warnings (all_warnings fmt s)])
            else found errs)
    end.
Proof.
  unfold validate_input. rewrite bind_run, rule_battery_run. cbv zeta.
  destruct (units_scan (obj m) expected_units) as [e|]; [reflexivity|].
  by rewrite report_run.
Qed.


End Runs.

(** ** The units loop *)

Lemma units_scan_passes (s : Monosynaptic) (table : list (string * Unit)) :
  forallb (λ '(param, expected_unit),
             match biophysical_params s !! param with
             | Some (PQuantity q) => bool_decide (dim q = unit_dim expected_unit)
             | Some _ => false
             | None => true
             end) table = true
  ↔ units_scan s table = None.
Proof.
  induction table as [|[param expected_unit] table IH]; simpl; [done|].
  unfold unit_stop.
  destruct (biophysical_params s !! param) as [[q|x|n]|]; simpl; try done.
  by destruct (bool_decide (dim q = unit_dim expected_unit)).
Qed.

Lemma units_pass_completes (s : Monosynaptic) :
  units_pass s = true ↔ units_scan s expected_units = None.
Proof. apply units_scan_passes. Qed.

(** The loop raises nothing but the two attribute errors. *)
Lemma units_scan_stops (s : Monosynaptic) (table : list (string * Unit)) (e : exn) :
  units_scan s table = Some e →
  e = AttributeError "dim" ∨ e = AttributeError "unit".
Proof.
  induction table as [|[param expected_unit] table IH]; simpl; [done|].
  unfold unit_stop.
  destruct (biophysical_params s !! param) as [[q|x|n]|]; simpl; try done.
  - destruct (bool_decide (dim q = unit_dim expected_unit)); [done|].
    intros [= <-]. by right.
  - intros [= <-]. by left.
  - intros [= <-]. by left.
Qed.

(** A round that raises stops the loop, at that round or before. *)
Lemma units_scan_blocked (s : Monosynaptic) (table : list (string * Unit))
    (param : string) (expected_unit : Unit) :
  (param, expected_unit) ∈ table →
  unit_stop s param expected_unit ≠ None →
  ∃ e, units_scan s table = Some e.
Proof.
  intros Hin Hstop.
  induction table as [|[param' unit'] table IH]; [by apply elem_of_nil in Hin|].
  simpl. apply elem_of_cons in Hin as [[= <- <-]|Hin].
  - destruct (unit_stop s param expected_unit); [by eauto|done].
  - destruct (unit_stop s param' unit'); [by eauto|by apply IH].
Qed.

(** Without a quantity of another dimension, the loop can only raise on
    [.dim]. *)
Lemma units_scan_only_dim (s : Monosynaptic) (table : list (string * Unit)) (e : exn) :
  forallb (λ '(param, expected_unit),
             match biophysical_params s !! param with
             | Some (PQuantity q) => bool_decide (dim q = unit_dim expected_unit)
             | _ => true
             end) table = true →
  units_scan s table = Some e →
  e = AttributeError "dim".
Proof.
  induction table as [|[param expected_unit] table IH]; simpl; [done|].
  unfold unit_stop.
  destruct (biophysical_params s !! param) as [[q|x|n]|]; simpl;
    try (by intros _ [= <-]); [|exact IH].
  destruct (bool_decide (dim q = unit_dim expected_unit)); [exact IH|done].
Qed.

Lemma elem_of_flat_map {A B} (f : A → list B) (l : list A) (y : B) :
  y ∈ flat_map f l ↔ ∃ x, x ∈ l ∧ y ∈ f x.
Proof.
  rewrite list_elem_of_In, in_flat_map. split.
  - intros (x & Hx & Hy). exists x. by rewrite !list_elem_of_In.
  - intros (x & Hx & Hy). exists x. by rewrite <- !list_elem_of_In.
Qed.

Lemma nonempty_set_true {K} `{Countable K} (X : gset K) :
  X ≠ ∅ → nonempty_set X = true.
Proof. intros HX. unfold nonempty_set. by rewrite bool_decide_eq_false_2. Qed.

Lemma nonempty_list_true {A} (l : list A) : l ≠ [] ↔ nonempty_list l = true.
Proof. destruct l; simpl; split; intros; done. Qed.

Section Reported.
Context (fmt : Formatter).

Lemma ees_entry_reported (neuron_type : string) (params : gmap string float) :
  neuron_type ∈ ["Ia"; "MN"] →
  (∀ param, param ∈ required_ees_params → params !! param = None →
     msg_missing_ees_param param neuron_type ∈ ees_entry_errors fmt neuron_type params)
  ∧ (∀ threshold saturation,
       params !! "threshold_10pct" = Some threshold →
       params !! "saturation_90pct" = Some saturation →
       (in_unit_interval threshold && in_unit_interval saturation = false →
        msg_ees_range fmt neuron_type threshold saturation
          ∈ ees_entry_errors fmt neuron_type params)
       ∧ (PrimFloat.leb saturation threshold = true →
          msg_ees_order neuron_type ∈ ees_entry_errors fmt neuron_type params)).
Proof.
  intros Hnt. unfold ees_entry_errors. rewrite bool_decide_eq_true_2 by done. split.
  - intros param Hparam Hnone. apply elem_of_app. left.
    apply elem_of_flat_map. exists param. split; [done|].
    rewrite Hnone. apply list_elem_of_here.
  - intros threshold saturation -> ->. split; intros Hviol.
    + apply elem_of_app. right. apply elem_of_app. left.
      apply andb_false_iff in Hviol as [-> | ->]; simpl; rewrite ?orb_true_r;
        apply list_elem_of_here.
    + apply elem_of_app. right. apply elem_of_app. right.
      rewrite Hviol. apply list_elem_of_here.
Qed.

(** When the units loop finishes, every violated rule that collects is in
    the list the rules have built. *)
Lemma findings_reported (s : Monosynaptic) :
  rules_reported fmt s (early_errors fmt s ++ ees_param_errors fmt s).
Proof.
  unfold rules_reported, early_errors. repeat split.
  - intros Hn. in_part (muscle_errors s). unfold muscle_errors.
    destruct (Z.eqb_spec (number_muscles s) 1); [done|apply list_elem_of_here].
  - intros Hn. in_part (neuron_errors fmt s). unfold neuron_errors.
    rewrite nonempty_set_true by done. apply list_elem_of_here.
  - intros Hn. in_part (connection_errors fmt s). unfold connection_errors.
    rewrite nonempty_set_true by done. apply list_elem_of_here.
  - intros Hn. in_part (spindle_errors s). unfold spindle_errors.
    rewrite Hn. apply list_elem_of_here.
  - intros neuron_type Hnt Hkey. in_part (ees_type_errors s).
    apply elem_of_flat_map. exists neuron_type. split; [done|].
    rewrite Hkey. apply list_elem_of_here.
  - intros param Hparam Hnone. in_part (mandatory_errors s).
    apply elem_of_flat_map. exists param. split; [done|].
    rewrite Hnone. apply list_elem_of_here.
  - intros param Hparam Hnone. in_part (ees_param_errors fmt s).
    apply elem_of_flat_map. exists (neuron_type, params). split; [done|].
    by apply ees_entry_reported.
  - intros Hviol. in_part (ees_param_errors fmt s).
    apply elem_of_flat_map. exists (neuron_type, params). split; [done|].
    by eapply ees_entry_reported.
  - intros Hviol. in_part (ees_param_errors fmt s).
    apply elem_of_flat_map. exists (neuron_type, params). split; [done|].
    by eapply ees_entry_reported.
Qed.

(** The object is never written, whatever the outcome. *)
Lemma validate_input_obj (m : Machine) : obj (validate_input fmt m).2 = obj m.
Proof.
  rewrite validate_input_run. cbv zeta.
  destruct (units_scan (obj m) expected_units) as [e|]; [done|].
  destruct (nonempty_list _); [done|]. simpl.
  by destruct (nonempty_list (all_warnings fmt (obj m))).
Qed.

(** The outcome and the buckets depend on the object alone. *)
Lemma validate_input_same_obj (m1 m2 : Machine) :
  obj m1 = obj m2 →
  (validate_input fmt m1).1 = (validate_input fmt m2).1
  ∧ issues (validate_input fmt m1).2 = issues (validate_input fmt m2).2.
Proof.
  intros Hobj. rewrite !validate_input_run. cbv zeta. rewrite Hobj.
  destruct (units_scan (obj m2) expected_units) as [e|]; [done|].
  destruct (nonempty_list _); [done|]. simpl.
  by destruct (nonempty_list (all_warnings fmt (obj m2))).
Qed.

End Reported.

Lemma append_assoc (a b c : string) : (a +:+ b) +:+ c = a +:+ b +:+ c.
Proof.
  induction a as [|ch a IH]; [done|].
  change (String ch ((a +:+ b) +:+ c) = String ch (a +:+ b +:+ c)). by f_equal.
Qed.

Lemma append_nil_r (a : string) : a +:+ "" = a.
Proof.
  induction a as [|ch a IH]; [done|].
  change (String ch (a +:+ "") = String ch a). by f_equal.
Qed.

(** The joined text contains each of its items. *)
Lemma join_contains (sep x : string) (l : list string) :
  x ∈ l → ∃ before after, join sep l = before +:+ x +:+ after.
Proof.
  induction l as [|y l IH]; intros Hx; [by apply elem_of_nil in Hx|].
  apply elem_of_cons in Hx as [->|Hx].
  - destruct l as [|z l].
    + exists "", "". simpl. by rewrite append_nil_r.
    + exists "", (sep +:+ join sep (z :: l)). reflexivity.
  - destruct (IH Hx) as (before & after & Hjoin).
    destruct l as [|z l]; [by apply elem_of_nil in Hx|].
    exists (y +:+ sep +:+ before), after.
    change (join sep (y :: z :: l)) with (y +:+ sep +:+ join sep (z :: l)).
    by rewrite Hjoin, !append_assoc.
Qed.

Section Validator.
Context (fmt : Formatter).

Lemma rule_battery_completes (m : Machine) :
  units_pass (obj m) = true → ∃ m1, rule_battery fmt m = (inr tt, m1).
Proof.
  intros Hpass. apply units_pass_completes in Hpass.
  rewrite rule_battery_run. cbv zeta. rewrite Hpass. eauto.
Qed.

(** What a finished battery says about the whole call. *)
Lemma rule_battery_finished (m m1 : Machine) :
  rule_battery fmt m = (inr tt, m1) →
  units_scan (obj m) expected_units = None
  ∧ m1 = mkMachine (obj m)
           (mkIssues (all_warnings fmt (obj m))
                     (early_errors fmt (obj m) ++ ees_param_errors fmt (obj m)))
           (stdout m)
  ∧ validate_input fmt m = report m1.
Proof.
  intros Hrun. unfold validate_input. rewrite bind_run, Hrun.
  rewrite rule_battery_run in Hrun. cbv zeta in Hrun.
  destruct (units_scan (obj m) expected_units) as [e|]; [discriminate|].
  by injection Hrun as <-.
Qed.

(** Nothing but the units loop raises before the report, and it raises
    [AttributeError]. *)
Lemma validate_input_raises (m : Machine) (e : exn) :
  (validate_input fmt m).1 = inl e →
  e = AttributeError "dim" ∨ e = AttributeError "unit"
  ∨ e = ValueError (msg_errors (errors (issues (validate_input fmt m).2))).
Proof.
  rewrite validate_input_run. cbv zeta.
  destruct (units_scan (obj m) expected_units) as [e'|] eqn:Hscan; simpl.
  - intros [= <-]. destruct (units_scan_stops _ _ _ Hscan); auto.
  - destruct (nonempty_list _); simpl; [|done]. intros [= <-]. auto.
Qed.

End Validator.

(** ** Facts about [__init__] *)

Lemma or_default_Some {A} (arg : option A) (x given : A) :
  arg = Some given → or_default arg x = given.
Proof. by intros ->. Qed.

Lemma or_default_None {A} (arg : option A) (x : A) :
  arg = None → or_default arg x = x.
Proof. by intros ->. Qed.

(** ['MN'] is in the population whatever the override. *)
Lemma population_has_MN (custom : option (gmap string Z)) :
  ∃ n, update_with default_neurons_population custom !! "MN" = Some n
       ∧ ∀ neurons v, custom = Some neurons → neurons !! "MN" = Some v → n = v.
Proof.
  destruct custom as [neurons|]; simpl.
  - destruct (neurons !! "MN") as [v|] eqn:Hv.
    + exists v. split; [by apply lookup_union_Some_l|]. intros ? ? [= <-]. congruence.
    + exists 500. split; [by rewrite lookup_union_r|]. intros ? ? [= <-]. congruence.
  - exists 500. split; [done|]. discriminate.
Qed.

(** The fields line 97 sees, when the two subscripts succeed. *)
Lemma init_fields_inr (a : Args.t) (s : Monosynaptic) :
  init_fields a = inr s →
  ∃ eleaky n,
    BiologicalSystem.biophysical_params (init_super a) !! "Eleaky" = Some eleaky
    ∧ update_with default_neurons_population (Args.custom_neurons a) !! "MN" = Some n
    ∧ s = mkMonosynaptic (init_super a)
            (update_with default_neurons_population (Args.custom_neurons a))
            (update_with default_connections (Args.custom_connections a))
            (update_with default_spindle_model (Args.custom_spindle a))
            (or_default (Args.custom_initial_potentials a) {[ "MN" := eleaky ]})
            (or_default (Args.custom_initial_condition_spike_activation a)
                        [ replicate (range_len n) zero_activation ]).
Proof.
  unfold init_fields, getitem.
  destruct (BiologicalSystem.biophysical_params (init_super a) !! "Eleaky") as [eleaky|];
    [|discriminate].
  destruct (update_with default_neurons_population (Args.custom_neurons a) !! "MN") as [n|];
    [|discriminate].
  intros [= <-]. by exists eleaky, n.
Qed.

Lemma init_fields_total (a : Args.t) :
  is_Some (or_default (Args.biophysical_params a) default_biophysical_params !! "Eleaky") →
  ∃ s, init_fields a = inr s.
Proof.
  intros [eleaky Heleaky]. unfold init_fields, getitem.
  change (BiologicalSystem.biophysical_params (init_super a))
    with (or_default (Args.biophysical_params a) default_biophysical_params).
  rewrite Heleaky.
  destruct (population_has_MN (Args.custom_neurons a)) as (n & -> & _). eauto.
Qed.

Section Construction.
Context (fmt : Formatter).

(** The object the caller gets is the one line 97 saw. *)
Lemma init_returns (a : Args.t) (out out' : list string) (s : Monosynaptic) :
  __init__ fmt a out = (inr s, out') → init_fields a = inr s.
Proof.
  unfold __init__. destruct (init_fields a) as [e|s0]; [discriminate|].
  pose proof (validate_input_obj fmt (mkMachine s0 (mkIssues [] []) out)) as Hobj.
  destruct (validate_input fmt _) as [[e|b] m']; [discriminate|].
  simpl in Hobj. intros [= <- _]. by rewrite Hobj.
Qed.

(** One collected error is enough for the call to raise. *)
(** One collected error is enough for the call to raise. *)
Lemma validate_input_fails (m : Machine) (msg : string) :
  msg ∈ early_errors fmt (obj m) ∨ msg ∈ ees_param_errors fmt (obj m) →
  ∃ e, (validate_input fmt m).1 = inl e.
Proof.
  intros Hmsg. rewrite validate_input_run. cbv zeta.
  destruct (units_scan (obj m) expected_units) as [e|]; [by eauto|].
  destruct (early_errors fmt (obj m) ++ ees_param_errors fmt (obj m)) eqn:Hall;
    [|by eauto].
  apply app_eq_nil in Hall as [Hearly Hees].
  rewrite Hearly, Hees in Hmsg. destruct Hmsg as [H|H]; by apply elem_of_nil in H.
Qed.

(** No finding at all: the call returns [True] and the object. *)
Lemma validate_input_clean (m : Machine) :
  early_errors fmt (obj m) = [] →
  units_scan (obj m) expected_units = None →
  ees_param_errors fmt (obj m) = [] →
  ∃ m', validate_input fmt m = (inr true, m') ∧ obj m' = obj m.
Proof.
  intros Hearly Hscan Hees. rewrite validate_input_run. cbv zeta.
  rewrite Hscan, Hearly, Hees. simpl.
  destruct (nonempty_list (all_warnings fmt (obj m))); eauto.
Qed.

End Construction.

(** ** The model at work on the other scenarios of the specification *)

(** Two muscles: one error, the muscle count. *)
Example two_muscles_rejected :
  __init__ sample_fmt (call_muscles_names ["soleus_r"; "tibialis_r"]) []
  = (inl (ValueError (msg_errors [msg_muscle_count])), []).
Proof. vm_compute. reflexivity. Qed.

(** ['MN'] with threshold 0.8 above saturation 0.5: the ordering error. *)
Example MN_ordering_rejected :
  __init__ sample_fmt
    (call_ees_profile
       [ ("Ia", {[ "threshold_10pct" := 0.3%float; "saturation_90pct" := 0.7%float ]});
         ("MN", {[ "threshold_10pct" := 0.8%float; "saturation_90pct" := 0.5%float ]}) ]) []
  = (inl (ValueError (msg_errors [msg_ees_order "MN"])), []).
Proof. vm_compute. reflexivity. Qed.

(** ['E_inh'] over the defaults: the object is built and one warning is
    printed. *)
Example E_inh_warned :
  __init__ sample_fmt
    (call_biophysical_params (<[ "E_inh" := (-75) *u mV ]> default_biophysical_params)) []
  = (inr (object_with (init_super (call_biophysical_params
            (<[ "E_inh" := (-75) *u mV ]> default_biophysical_params)))),
     [msg_warnings [msg_inhibitory]]).
Proof. vm_compute. reflexivity. Qed.

(** A not-a-number threshold is outside [0,1] and below nothing. *)
Example nan_out_of_range :
  in_unit_interval PrimFloat.nan = false
  ∧ PrimFloat.leb 0.5 PrimFloat.nan = false.
Proof. split; reflexivity. Qed.

(** ** The claims *)

(** C1, as the code has it.  A supplied [biophysical_params], and likewise a
    supplied [ees_recruitment_profile], is stored as given and replaces the
    defaults as a whole: a key it does not mention is absent from the stored
    mapping, and the defaults are used only when the argument is [None].  The
    object the caller gets holds the same mappings.  A supplied
    [biophysical_params] without one of the seven mandatory keys makes
    construction fail. *)
Theorem C1_supplied_mappings_replace_defaults (fmt : Formatter) (a : Args.t) :
  (∀ bp, Args.biophysical_params a = Some bp →
     BiologicalSystem.biophysical_params (init_super a) = bp
     ∧ (∀ key, bp !! key = None →
          BiologicalSystem.biophysical_params (init_super a) !! key = None)
     ∧ (∀ param out, param ∈ required_params → bp !! param = None →
          ∃ e, (__init__ fmt a out).1 = inl e))
  ∧ (Args.biophysical_params a = None →
     BiologicalSystem.biophysical_params (init_super a) = default_biophysical_params)
  ∧ (∀ profile, Args.ees_recruitment_profile a = Some profile →
       BiologicalSystem.ees_recruitment_profile (init_super a) = profile)
  ∧ (Args.ees_recruitment_profile a = None →
     BiologicalSystem.ees_recruitment_profile (init_super a)
     = default_ees_recruitment_profile)
  ∧ (∀ out s out', __init__ fmt a out = (inr s, out') →
       biophysical_params s
       = or_default (Args.biophysical_params a) default_biophysical_params
       ∧ ees_recruitment_profile s
         = or_default (Args.ees_recruitment_profile a) default_ees_recruitment_profile).
Proof.
  split; [|split; [|split; [|split]]].
  - intros bp Hbp.
    assert (BiologicalSystem.biophysical_params (init_super a) = bp) as Hstored
      by by apply or_default_Some.
    split; [done|]. split; [intros key Hkey; by rewrite Hstored|].
    intros param out Hparam Hnone. unfold __init__.
    destruct (init_fields a) as [e|s] eqn:Hfields; [by eauto|].
    destruct (init_fields_inr a s Hfields) as (eleaky & n & _ & _ & Hs).
    destruct (validate_input_fails fmt (mkMachine s (mkIssues [] []) out)
                (msg_missing_param param)) as [e He].
    { left. unfold early_errors. in_part (mandatory_errors s).
      apply elem_of_flat_map. exists param. split; [done|].
      assert (biophysical_params s !! param = None) as ->; [|apply list_elem_of_here].
      rewrite Hs.
      change (BiologicalSystem.biophysical_params (init_super a) !! param = None).
      by rewrite Hstored. }
    destruct (validate_input fmt _) as [[e'|b] m']; [by eauto|discriminate].
  - by apply or_default_None.
  - intros profile. by apply or_default_Some.
  - by apply or_default_None.
  - intros out s out' Hs%init_returns.
    by destruct (init_fields_inr a s Hs) as (? & ? & _ & _ & ->).
Qed.

(** [Monosynaptic(biophysical_params={'T_refr': 5*ms})]: the other six
    parameters are not at their defaults, they are absent, and line 81 raises
    [KeyError]; and a profile with ['Ia'] alone has no ['MN'] entry. *)
Lemma C1_only_T_refr_counterexample :
  BiologicalSystem.biophysical_params
    (init_super (call_biophysical_params {[ "T_refr" := 5 *u ms ]})) !! "Eleaky" = None
  ∧ default_biophysical_params !! "Eleaky" = Some ((-70) *u mV)
  ∧ __init__ sample_fmt (call_biophysical_params {[ "T_refr" := 5 *u ms ]}) []
    = (inl (KeyError "Eleaky"), [])
  ∧ has_key "MN"
      (BiologicalSystem.ees_recruitment_profile
         (init_super (call_ees_profile
            [ ("Ia", {[ "threshold_10pct" := 0.2%float; "saturation_90pct" := 0.6%float ]}) ])))
    = false.
Proof. repeat split; vm_compute; reflexivity. Qed.

(** The mandatory key that is left out makes construction fail. *)
Lemma C1_missing_gL_witness :
  ∃ e, (__init__ sample_fmt
          (call_biophysical_params (delete "gL" default_biophysical_params)) []).1 = inl e.
Proof.
  refine (proj2 (proj2 (proj1 (C1_supplied_mappings_replace_defaults sample_fmt
            (call_biophysical_params (delete "gL" default_biophysical_params))) _ eq_refl))
            "gL" [] _ _).
  - apply list_elem_of_further, list_elem_of_further, list_elem_of_here.
  - reflexivity.
Defined.

(** C2. [Monosynaptic()] succeeds: the population is exactly
    [{Ia: 410, MN: 500}], the only connection key is [(Ia, MN)], the only
    spindle equation is the one of [Ia], and validation of this object
    returns [True] with both buckets empty and nothing printed. *)
Theorem C2_default_construction (fmt : Formatter) (out : list string) :
  ∃ s,
    __init__ fmt Args.defaults out = (inr s, out)
    ∧ neurons_population s = {[ "Ia" := 410; "MN" := 500 ]}
    ∧ dom (connections s) = {[ ("Ia", "MN") ]}
    ∧ dom (spindle_model s) = {[ "Ia" ]}
    ∧ validate_input fmt (mkMachine s (mkIssues [] []) out)
      = (inr true, mkMachine s (mkIssues [] []) out).
Proof.
  assert (validate_input fmt (mkMachine default_object (mkIssues [] []) out)
          = (inr true, mkMachine default_object (mkIssues [] []) out)) as Hvalid.
  { rewrite validate_input_run. vm_compute. reflexivity. }
  exists default_object. split; [|by repeat split].
  unfold __init__.
  change (init_fields Args.defaults) with (@inr exn Monosynaptic default_object).
  cbv beta iota. by rewrite Hvalid.
Qed.

Lemma default_Ia_range :
  recruitment_range default_ees_recruitment_profile "Ia" = Some (0.3%float, 0.7%float).
Proof. vm_compute. reflexivity. Qed.

(** C3, as the code has it.  In the default profile ['Ia'] has
    [threshold_10pct = 0.3] and [saturation_90pct = 0.7], ['MN'] has
    [threshold_10pct = 0.7] and [saturation_90pct = 0.9]; this is the profile
    [Monosynaptic()] stores. *)
Theorem C3_default_recruitment_ranges :
  recruitment_range default_ees_recruitment_profile "Ia" = Some (0.3%float, 0.7%float)
  ∧ recruitment_range default_ees_recruitment_profile "MN" = Some (0.7%float, 0.9%float)
  ∧ BiologicalSystem.ees_recruitment_profile (init_super Args.defaults)
    = default_ees_recruitment_profile.
Proof. repeat split; vm_compute; reflexivity. Qed.

(** The default ['Ia'] range does not start at 0.10. *)
Lemma C3_Ia_threshold_counterexample :
  recruitment_range default_ees_recruitment_profile "Ia" ≠ Some (0.1%float, 0.7%float).
Proof.
  rewrite default_Ia_range. intros H.
  pose proof (f_equal (λ range, match range with
                                | Some (threshold, _) => PrimFloat.eqb threshold 0.1
                                | None => false
                                end) H) as Heqb.
  vm_compute in Heqb. discriminate.
Qed.
(** C4. The rules do not always run to the end: a quantity of another
    dimension than expected raises [AttributeError] at [value.unit] inside
    the units loop (a plain number at [value.dim]), and what was collected
    before is not reported.  With two muscles and ['tau_e'] given as
    [0.5*mV] the muscle-count error is in the bucket when the call ends in
    [AttributeError]; so does construction.  The call ends this way on every
    object the units loop does not let through.  When the rules do run to the
    end and leave an error, the call raises one [ValueError] whose text is
    the header and the collected errors joined by newlines, contains each of
    them and misses no violated rule that collects, and nothing is printed;
    with two muscles and no ['MN'] profile entry the text is the header and
    the two messages, one per line. *)
Theorem C4_collected_errors_lost_on_unit_mismatch (fmt : Formatter) :
  validate_input fmt (fresh two_muscles_tau_e_object)
  = (inl (AttributeError "unit"),
     mkMachine two_muscles_tau_e_object
               (mkIssues [] ["Monosynaptic reflex should have exactly 1 muscle"]) [])
  ∧ __init__ fmt (call_muscles_and_params ["soleus_r"; "tibialis_r"] tau_e_in_mV) []
    = (inl (AttributeError "unit"), [])
  ∧ (∀ m, units_pass (obj m) = false →
          ∃ attr, (validate_input fmt m).1 = inl (AttributeError attr))
  ∧ (∀ m, units_pass (obj m) = true ↔ ∃ m1, rule_battery fmt m = (inr tt, m1))
  ∧ (∀ m m1, rule_battery fmt m = (inr tt, m1) →
             errors (issues m1) ≠ [] →
             validate_input fmt m = (inl (ValueError (msg_errors (errors (issues m1)))), m1)
             ∧ stdout m1 = stdout m
             ∧ rules_reported fmt (obj m) (errors (issues m1))
             ∧ ∀ msg, msg ∈ errors (issues m1) →
                 ∃ before after, msg_errors (errors (issues m1)) = before +:+ msg +:+ after)
  ∧ (validate_input fmt (fresh two_muscles_no_MN_object)).1
    = inl (ValueError
             ("Monosynaptic configuration errors:"
              +:+ String (Ascii.ascii_of_nat 10) "Monosynaptic reflex should have exactly 1 muscle"
              +:+ String (Ascii.ascii_of_nat 10)
                    "Missing EES recruitment parameters for neuron type 'MN'")).
Proof.
  split; [by rewrite validate_input_run|].
  split.
  { unfold __init__.
    change (init_fields _) with (@inr exn Monosynaptic two_muscles_tau_e_object).
    cbv beta iota. by rewrite validate_input_run. }
  split.
  { intros m Hpass. rewrite validate_input_run. cbv zeta.
    destruct (units_scan (obj m) expected_units) as [e|] eqn:Hscan.
    - destruct (units_scan_stops _ _ _ Hscan) as [-> | ->]; by eauto.
    - apply units_pass_completes in Hscan. congruence. }
  split.
  { intros m. split; [apply rule_battery_completes|].
    intros [m1 Hrun]. apply units_pass_completes.
    by destruct (rule_battery_finished fmt m m1 Hrun) as (? & _). }
  split; [|by rewrite validate_input_run].
  intros m m1 Hrun Herrs.
  destruct (rule_battery_finished fmt m m1 Hrun) as (Hscan & Hm1 & Hcall).
  rewrite Hcall, report_run.
  rewrite (proj1 (nonempty_list_true _) Herrs).
  split; [done|]. split; [by rewrite Hm1|]. split.
  - rewrite Hm1. simpl. apply findings_reported.
  - intros msg Hmsg. unfold msg_errors.
    destruct (join_contains nl msg _ Hmsg) as (before & after & ->).
    exists ("Monosynaptic configuration errors:" +:+ nl +:+ before), after.
    by rewrite !append_assoc.
Qed.

(** C5. A quantity of another dimension than expected is not reported: the
    round of the units loop that meets it raises [AttributeError] when the
    f-string of lines 170-171 reads [value.unit], and appends nothing.  So
    validation ends in [AttributeError], never in the [ValueError] that
    would name the parameter, and construction fails without that report.
    With ['T_refr'] given as a voltage over the defaults, construction
    raises [AttributeError].  The table expects a time for ['T_refr'] and
    ['tau_e'], a voltage for ['Eleaky'], ['E_ex'] and ['threshold_v'], a
    conductance for ['gL'] and a capacitance for ['Cm']. *)
Theorem C5_dimension_mismatch_raises_AttributeError (fmt : Formatter) (param : string)
    (expected_unit : Unit) (q : Quantity) :
  (param, expected_unit) ∈ expected_units →
  dim q ≠ unit_dim expected_unit →
  (∀ m, biophysical_params (obj m) !! param = Some (PQuantity q) →
     check_unit fmt param expected_unit m = (inl (AttributeError "unit"), m)
     ∧ (∃ attr, (validate_input fmt m).1 = inl (AttributeError attr))
     ∧ (∀ text, (validate_input fmt m).1 ≠ inl (ValueError text)))
  ∧ (∀ a out,
       BiologicalSystem.biophysical_params (init_super a) !! param = Some (PQuantity q) →
       ∃ e, (__init__ fmt a out).1 = inl e ∧ ∀ text, e ≠ ValueError text)
  ∧ (∀ v out,
       dim v = mkDim 2 1 (-3) (-1) 0 0 0 →
       __init__ fmt (call_biophysical_params
                       (<[ "T_refr" := PQuantity v ]> default_biophysical_params)) out
       = (inl (AttributeError "unit"), out))
  ∧ (λ row : string * Unit, (row.1, unit_dim row.2)) <$> expected_units
    = [ ("T_refr", mkDim 0 0 1 0 0 0 0);
        ("Eleaky", mkDim 2 1 (-3) (-1) 0 0 0);
        ("gL", mkDim (-2) (-1) 3 2 0 0 0);
        ("Cm", mkDim (-2) (-1) 4 2 0 0 0);
        ("E_ex", mkDim 2 1 (-3) (-1) 0 0 0);
        ("tau_e", mkDim 0 0 1 0 0 0 0);
        ("threshold_v", mkDim 2 1 (-3) (-1) 0 0 0) ].
Proof.
  intros Hin Hdim.
  assert (∀ m, biophysical_params (obj m) !! param = Some (PQuantity q) →
               ∃ attr, (validate_input fmt m).1 = inl (AttributeError attr)) as Haborts.
  { intros m Hq. rewrite validate_input_run. cbv zeta.
    destruct (units_scan_blocked (obj m) expected_units param expected_unit Hin) as [e Hscan].
    { unfold unit_stop. rewrite Hq. by rewrite bool_decide_eq_false_2. }
    rewrite Hscan. destruct (units_scan_stops _ _ _ Hscan) as [-> | ->]; by eauto. }
  split; [|split; [|split]].
  - intros m Hq. split; [|split].
    + rewrite check_unit_run. unfold unit_stop. rewrite Hq.
      by rewrite bool_decide_eq_false_2.
    + by apply Haborts.
    + intros text. destruct (Haborts m Hq) as [attr ->]. discriminate.
  - intros a out Hq. unfold __init__.
    destruct (init_fields a) as [e|s] eqn:Hfields.
    + exists e. split; [done|]. intros text ->.
      unfold init_fields, getitem in Hfields.
      destruct (_ !! "Eleaky"); [|discriminate].
      destruct (_ !! "MN"); discriminate.
    + destruct (init_fields_inr a s Hfields) as (? & ? & _ & _ & Hs).
      destruct (Haborts (mkMachine s (mkIssues [] []) out)) as [attr Hattr].
      { rewrite Hs. exact Hq. }
      destruct (validate_input fmt _) as [[e'|b] m']; simpl in Hattr; [|discriminate].
      injection Hattr as ->. exists (AttributeError attr). split; [done|discriminate].
  - intros [c [name d scale]] out Hv. unfold dim in Hv. simpl in Hv. subst d.
    unfold __init__.
    change (init_fields _) with
      (@inr exn Monosynaptic
         (object_with (init_super (call_biophysical_params
            (<[ "T_refr" := PQuantity (mkQuantity c (mkUnit name (mkDim 2 1 (-3) (-1) 0 0 0)
                                                         scale)) ]>
               default_biophysical_params))))).
    cbv beta iota. by rewrite validate_input_run.
  - reflexivity.
Qed.

(** [Monosynaptic(biophysical_params={..., 'T_refr': 5*mV})] *)
Lemma C5_T_refr_in_mV_witness :
  __init__ sample_fmt (call_biophysical_params T_refr_in_mV) []
  = (inl (AttributeError "unit"), []).
Proof.
  refine (proj1 (proj2 (proj2 (C5_dimension_mismatch_raises_AttributeError sample_fmt
                          "T_refr" second (mkQuantity 5 mV) _ _))) (mkQuantity 5 mV) [] _).
  - apply list_elem_of_here.
  - vm_compute. discriminate.
  - reflexivity.
Defined.




(** C7. A [custom_neurons] that does not mention ['Ia'] is merged into the
    default population: ['Ia'] stays at 410, every key it mentions takes the
    supplied value, every other key keeps its default.  This is the
    population of the object, for any other arguments; and with the other
    arguments defaulted, construction succeeds. *)
Theorem C7_custom_neurons_merge (fmt : Formatter) (neurons : gmap string Z) :
  neurons !! "Ia" = None →
  let population := update_with default_neurons_population (Some neurons) in
  population !! "Ia" = Some 410
  ∧ (∀ key value, neurons !! key = Some value → population !! key = Some value)
  ∧ (∀ key, neurons !! key = None → population !! key = default_neurons_population !! key)
  ∧ (∀ a s, Args.custom_neurons a = Some neurons → init_fields a = inr s →
            neurons_population s = population)
  ∧ (∀ a out s out', Args.custom_neurons a = Some neurons →
                     __init__ fmt a out = (inr s, out') →
                     neurons_population s = population)
  ∧ (∀ out, ∃ s out', __init__ fmt (call_custom_neurons neurons) out = (inr s, out')
                      ∧ neurons_population s = population).
Proof.
  intros HIa population.
  assert (∀ a s, Args.custom_neurons a = Some neurons → init_fields a = inr s →
                 neurons_population s = population) as Hfields.
  { intros a s Hcustom Hs.
    destruct (init_fields_inr a s Hs) as (? & ? & _ & _ & ->). simpl. by rewrite Hcustom. }
  split; [subst population; simpl; by rewrite lookup_union_r|].
  split; [intros key value Hkey; by apply lookup_union_Some_l|].
  split; [intros key Hkey; subst population; simpl; by rewrite lookup_union_r|].
  split; [done|].
  split.
  { intros a out s out' Hcustom Hs. apply init_returns in Hs. by apply (Hfields a). }
  intros out.
  destruct (init_fields_total (call_custom_neurons neurons)) as [s Hs]; [by eexists|].
  pose proof (Hfields (call_custom_neurons neurons) s eq_refl Hs) as Hpop.
  destruct (init_fields_inr _ s Hs) as (eleaky & n & _ & _ & Hshape).
  destruct (validate_input_clean fmt (mkMachine s (mkIssues [] []) out)) as (m' & Hcall & Hobj).
  - simpl. unfold early_errors.
    assert (neuron_errors fmt s = []) as ->.
    { unfold neuron_errors, nonempty_set.
      assert (missing_neurons s = ∅) as ->; [|done].
      unfold missing_neurons. rewrite Hpop.
      apply elem_of_equiv_empty_L. intros label [Hreq Hnot]%elem_of_difference.
      apply Hnot, elem_of_dom. unfold required_neurons in Hreq.
      apply elem_of_union in Hreq as [->%elem_of_singleton | ->%elem_of_singleton].
      - exists 410. subst population. simpl. by rewrite lookup_union_r.
      - destruct (population_has_MN (Some neurons)) as (n' & Hn' & _). by exists n'. }
    rewrite Hshape. vm_compute. reflexivity.
  - simpl. rewrite Hshape. vm_compute. reflexivity.
  - simpl. rewrite Hshape. vm_compute. reflexivity.
  - exists s, (stdout m'). split; [|done].
    unfold __init__. rewrite Hs, Hcall. simpl in Hobj. by rewrite Hobj.
Qed.

(** [Monosynaptic(custom_neurons={"MN": 600})] *)
Lemma C7_MN_600_witness :
  ∃ s out', __init__ sample_fmt (call_custom_neurons {[ "MN" := 600 ]}) [] = (inr s, out')
            ∧ neurons_population s = {[ "Ia" := 410; "MN" := 600 ]}.
Proof.
  assert (({[ "MN" := 600 ]} : gmap string Z) !! "Ia" = None) as HIa
    by (vm_compute; reflexivity).
  destruct (proj2 (proj2 (proj2 (proj2 (proj2
              (C7_custom_neurons_merge sample_fmt {[ "MN" := 600 ]} HIa))))) [])
    as (s & out' & Hcall & Hpop).
  exists s, out'. split; [exact Hcall|].
  rewrite Hpop. vm_compute. reflexivity.
Defined.

(** C8. A call of [validate_input] that returns leaves every field of the
    object as it was, and a second call on the object returns [True] again,
    with the same buckets and again without touching a field. *)
Theorem C8_validation_is_read_only (fmt : Formatter) (m m' : Machine) (result : bool) :
  validate_input fmt m = (inr result, m') →
  result = true
  ∧ obj m' = obj m
  ∧ neurons_population (obj m') = neurons_population (obj m)
  ∧ connections (obj m') = connections (obj m)
  ∧ spindle_model (obj m') = spindle_model (obj m)
  ∧ biophysical_params (obj m') = biophysical_params (obj m)
  ∧ ees_recruitment_profile (obj m') = ees_recruitment_profile (obj m)
  ∧ initial_potentials (obj m') = initial_potentials (obj m)
  ∧ initial_condition_spike_activation (obj m')
    = initial_condition_spike_activation (obj m)
  ∧ ∃ m'', validate_input fmt m' = (inr true, m'')
           ∧ obj m'' = obj m
           ∧ issues m'' = issues m'.
Proof.
  intros Hcall.
  assert (obj m' = obj m) as Hobj.
  { pose proof (validate_input_obj fmt m) as H. by rewrite Hcall in H. }
  assert (result = true) as ->.
  { rewrite validate_input_run in Hcall. cbv zeta in Hcall.
    destruct (units_scan (obj m) expected_units) as [e|]; [discriminate|].
    destruct (nonempty_list _); [discriminate|]. by injection Hcall as <- _. }
  split; [done|]. rewrite Hobj. repeat (split; [done|]).
  destruct (validate_input_same_obj fmt m' m Hobj) as [Hresult Hissues].
  pose proof (validate_input_obj fmt m') as Hobj'.
  rewrite Hcall in Hresult, Hissues. simpl in Hresult, Hissues.
  destruct (validate_input fmt m') as [r m''] eqn:Hagain. simpl in *.
  exists m''. subst r. by rewrite Hobj' in *.
Qed.

(** The default object validates, twice. *)
Lemma C8_default_object_witness :
  ∃ m'', validate_input sample_fmt (fresh default_object) = (inr true, m'')
         ∧ obj m'' = default_object
         ∧ issues m'' = mkIssues [] [].
Proof.
  refine (proj2 (proj2 (proj2 (proj2 (proj2 (proj2 (proj2 (proj2 (proj2
            (C8_validation_is_read_only sample_fmt (fresh default_object)
               (fresh default_object) true _)))))))))).
  vm_compute. reflexivity.
Defined.

(** C9. When [custom_initial_condition_spike_activation] is not given, the
    initial activation state of the object is one list, of as many records
    [{u0: [0, 0], c0: [0, 0], P0: 0, a0: 0}] as the merged population has
    ['MN'] neurons: the count is read after the [custom_neurons] update, so an
    ['MN'] override sets it.  The object exists at line 97 as soon as
    ['Eleaky'] can be read. *)
Theorem C9_default_activation_follows_MN (a : Args.t) :
  Args.custom_initial_condition_spike_activation a = None →
  (∀ s, init_fields a = inr s →
     ∃ n, neurons_population s
          = update_with default_neurons_population (Args.custom_neurons a)
        ∧ neurons_population s !! "MN" = Some n
        ∧ (∀ neurons v, Args.custom_neurons a = Some neurons →
                        neurons !! "MN" = Some v → n = v)
        ∧ initial_condition_spike_activation s
          = [ replicate (Z.to_nat n)
                (mkActivationState [0%float; 0%float] [0%float; 0%float] 0%float 0%float) ]
        ∧ length (initial_condition_spike_activation s) = 1%nat
        ∧ (0 ≤ n → ∀ inner, inner ∈ initial_condition_spike_activation s →
                   Z.of_nat (length inner) = n
                   ∧ ∀ record, record ∈ inner →
                       u0 record = [0%float; 0%float] ∧ c0 record = [0%float; 0%float]
                       ∧ P0 record = 0%float ∧ a0 record = 0%float))
  ∧ (∀ fmt out s out', __init__ fmt a out = (inr s, out') → init_fields a = inr s)
  ∧ (is_Some (or_default (Args.biophysical_params a) default_biophysical_params !! "Eleaky") →
     ∃ s, init_fields a = inr s).
Proof.
  intros Hnone. split; [|split].
  - intros s Hs.
    destruct (init_fields_inr a s Hs) as (eleaky & n & _ & Hn & ->).
    destruct (population_has_MN (Args.custom_neurons a)) as (n' & Hn' & Hoverride).
    assert (n' = n) as -> by congruence.
    exists n. simpl. rewrite Hnone. simpl. repeat (split; [done|]).
    intros Hpos inner Hinner. apply list_elem_of_singleton in Hinner as ->.
    split.
    + rewrite length_replicate. unfold range_len. lia.
    + intros record Hrecord. by apply elem_of_replicate in Hrecord as [-> _].
  - intros fmt out s out'. apply init_returns.
  - apply init_fields_total.
Qed.

(** [Monosynaptic(custom_neurons={"MN": 600})]: 600 zero records. *)
Lemma C9_MN_600_witness :
  ∃ s, init_fields (call_custom_neurons {[ "MN" := 600 ]}) = inr s
       ∧ initial_condition_spike_activation s
         = [ replicate 600%nat
               (mkActivationState [0%float; 0%float] [0%float; 0%float] 0%float 0%float) ].
Proof.
  pose proof (C9_default_activation_follows_MN (call_custom_neurons {[ "MN" := 600 ]}) eq_refl)
    as (Hstate & _ & Htotal).
  destruct Htotal as [s Hs]; [by eexists|].
  exists s. split; [exact Hs|].
  destruct (Hstate s Hs) as (n & _ & _ & Hn & -> & _).
  by rewrite (Hn {[ "MN" := 600 ]} 600 eq_refl eq_refl).
Defined.

(** C10. A plain number under a key of the expected-units table: the round
    of the loop that reads its [.dim] raises [AttributeError] and appends
    nothing, and so the whole call ends in [AttributeError], not in the
    [ValueError] that reports the collected errors; it is the
    [AttributeError] of [.dim] unless a quantity of another dimension stops
    the loop first.  No round of the loop ever appends: the branch that
    builds the error is entered exactly for a quantity of another dimension
    than expected, and raises at [value.unit]. *)
Theorem C10_plain_number_aborts (fmt : Formatter) (m : Machine) (param : string)
    (expected_unit : Unit) (value : pyvalue) :
  (param, expected_unit) ∈ expected_units →
  biophysical_params (obj m) !! param = Some value →
  (∀ q, value ≠ PQuantity q) →
  check_unit fmt param expected_unit m = (inl (AttributeError "dim"), m)
  ∧ (∃ attr, (validate_input fmt m).1 = inl (AttributeError attr))
  ∧ (quantities_match (obj m) = true →
     (validate_input fmt m).1 = inl (AttributeError "dim"))
  ∧ (∀ errs, (validate_input fmt m).1 ≠ inl (ValueError errs))
  ∧ (∀ param' unit', (check_unit fmt param' unit' m).2 = m)
  ∧ (∀ param' unit',
       (check_unit fmt param' unit' m).1 = inl (AttributeError "unit")
       ↔ ∃ q, biophysical_params (obj m) !! param' = Some (PQuantity q)
              ∧ dim q ≠ unit_dim unit').
Proof.
  intros Hin Hvalue Hplain.
  assert (unit_stop (obj m) param expected_unit = Some (AttributeError "dim")) as Hround.
  { unfold unit_stop. rewrite Hvalue.
    destruct value as [q|x|n]; [by destruct (Hplain q)|done..]. }
  destruct (units_scan_blocked (obj m) expected_units param expected_unit Hin) as [e Hscan];
    [by rewrite Hround|].
  assert ((validate_input fmt m).1 = inl e) as Hcall.
  { rewrite validate_input_run. cbv zeta. by rewrite Hscan. }
  split; [by rewrite check_unit_run, Hround|].
  split; [rewrite Hcall; destruct (units_scan_stops _ _ _ Hscan) as [-> | ->]; by eauto|].
  split.
  { intros Hmatch. rewrite Hcall. f_equal.
    by apply (units_scan_only_dim (obj m) expected_units). }
  split.
  { intros errs. rewrite Hcall.
    destruct (units_scan_stops _ _ _ Hscan) as [-> | ->]; discriminate. }
  split.
  { intros param' unit'. rewrite check_unit_run.
    by destruct (unit_stop (obj m) param' unit'). }
  intros param' unit'. rewrite check_unit_run. unfold unit_stop.
  destruct (biophysical_params (obj m) !! param') as [[q|x|n]|]; simpl.
  - case_bool_decide as Hd; simpl.
    + split; [discriminate|]. intros (q' & [= <-] & Hne). by destruct Hne.
    + split; [|done]. intros _. by exists q.
  - split; [discriminate|]. by intros (q' & [=] & _).
  - split; [discriminate|]. by intros (q' & [=] & _).
  - split; [discriminate|]. by intros (q' & [=] & _).
Qed.

(** [Monosynaptic(biophysical_params={..., 'T_refr': 5})] *)
Lemma C10_T_refr_plain_witness :
  (validate_input sample_fmt (fresh (object_with (init_super
     (call_biophysical_params T_refr_plain))))).1 = inl (AttributeError "dim")
  ∧ (__init__ sample_fmt (call_biophysical_params T_refr_plain) []).1
    = inl (AttributeError "dim").
Proof.
  split; [|vm_compute; reflexivity].
  refine (proj1 (proj2 (proj2
            (C10_plain_number_aborts sample_fmt _ "T_refr" second (PInt 5) _ _ _))) _).
  - apply list_elem_of_here.
  - vm_compute. reflexivity.
  - discriminate.
  - vm_compute. reflexivity.
Defined.

(** ** Further properties of [validate_input] *)

Section Acceptance.
Context (fmt : Formatter).

Lemma app_nil_iff {A} (l1 l2 : list A) : l1 ++ l2 = [] ↔ l1 = [] ∧ l2 = [].
Proof.
  split; [apply app_eq_nil|]. by intros [-> ->].
Qed.

Lemma flat_map_nil_iff {A B} (f : A → list B) (l : list A) :
  flat_map f l = [] ↔ ∀ x, x ∈ l → f x = [].
Proof.
  induction l as [|x l IH]; simpl.
  - split; [|done]. intros _ x Hx. by apply elem_of_nil in Hx.
  - rewrite app_nil_iff, IH. split.
    + intros [Hx Hl] y [->|Hy]%elem_of_cons; auto.
    + intros H. split; [apply H, list_elem_of_here|].
      intros y Hy. by apply H, list_elem_of_further.
Qed.

Lemma forallb_elem_of {A} (f : A → bool) (l : list A) :
  forallb f l = true ↔ ∀ x, x ∈ l → f x = true.
Proof.
  rewrite forallb_forall. split; intros H x Hx; apply H; by apply list_elem_of_In.
Qed.

Lemma muscle_errors_nil (s : Monosynaptic) :
  muscle_errors s = [] ↔ (number_muscles s =? 1) = true.
Proof. unfold muscle_errors. by destruct (number_muscles s =? 1). Qed.

Lemma neuron_errors_nil (s : Monosynaptic) :
  neuron_errors fmt s = [] ↔ required_neurons ⊆ dom (neurons_population s).
Proof.
  unfold neuron_errors, nonempty_set, missing_neurons.
  case_bool_decide as Hempty; simpl; split; try done.
  - intros _. by apply empty_difference_subseteq_L.
  - intros Hsub. destruct Hempty. by apply subseteq_empty_difference_L.
Qed.

Lemma connection_errors_nil (s : Monosynaptic) :
  connection_errors fmt s = [] ↔ ("Ia", "MN") ∈ dom (connections s).
Proof.
  unfold connection_errors, nonempty_set, missing_connections, required_connections.
  rewrite <- singleton_subseteq_l.
  case_bool_decide as Hempty; simpl; split; try done.
  - intros _. by apply empty_difference_subseteq_L.
  - intros Hsub. destruct Hempty. by apply subseteq_empty_difference_L.
Qed.

Lemma spindle_errors_nil (s : Monosynaptic) :
  spindle_errors s = [] ↔ is_Some (spindle_model s !! "Ia").
Proof.
  unfold spindle_errors. by destruct (spindle_model s !! "Ia"); split.
Qed.

Lemma ees_type_errors_nil (s : Monosynaptic) :
  ees_type_errors s = []
  ↔ has_key "Ia" (ees_recruitment_profile s) && has_key "MN" (ees_recruitment_profile s) = true.
Proof.
  unfold ees_type_errors. simpl.
  destruct (has_key "Ia" _), (has_key "MN" _); simpl; split; done.
Qed.

(** The mandatory-key loop and the units loop, row by row. *)
Lemma params_accepted_iff (s : Monosynaptic) (table : list (string * Unit)) :
  forallb (param_accepted (biophysical_params s)) table = true
  ↔ flat_map (λ param, match biophysical_params s !! param with
                        | Some _ => []
                        | None => [msg_missing_param param]
                        end) (table.*1) = []
    ∧ units_scan s table = None.
Proof.
  induction table as [|[param expected_unit] table IH]; simpl; [done|].
  rewrite andb_true_iff, IH, app_nil_iff. unfold param_accepted, unit_stop. simpl.
  destruct (biophysical_params s !! param) as [[q|x|n]|]; simpl;
    try case_bool_decide; simpl; intuition congruence.
Qed.

Lemma ees_entry_errors_nil (neuron_type : string) (params : gmap string float) :
  ees_entry_errors fmt neuron_type params = [] ↔ entry_accepted neuron_type params = true.
Proof.
  unfold ees_entry_errors, entry_accepted.
  destruct (bool_decide (neuron_type ∈ ["Ia"; "MN"])); [|done]. simpl.
  destruct (params !! "threshold_10pct") as [threshold|],
           (params !! "saturation_90pct") as [saturation|]; simpl; try done.
  destruct (in_unit_interval threshold), (in_unit_interval saturation),
           (PrimFloat.leb saturation threshold); simpl; split; done.
Qed.

Lemma ees_param_errors_nil (s : Monosynaptic) :
  ees_param_errors fmt s = []
  ↔ forallb (λ '(neuron_type, params), entry_accepted neuron_type params)
            (ees_recruitment_profile s) = true.
Proof.
  unfold ees_param_errors. rewrite flat_map_nil_iff, forallb_elem_of.
  split; intros H [neuron_type params] Hin; apply ees_entry_errors_nil; by apply (H (_, _)).
Qed.

(** No error at all, in terms of [accepted]. *)
Lemma accepted_iff (s : Monosynaptic) :
  accepted s = true
  ↔ units_scan s expected_units = None
    ∧ early_errors fmt s = [] ∧ ees_param_errors fmt s = [].
Proof.
  unfold accepted, early_errors.
  rewrite !andb_true_iff, !bool_decide_eq_true, !app_nil_iff.
  rewrite muscle_errors_nil, neuron_errors_nil, connection_errors_nil, spindle_errors_nil,
    ees_type_errors_nil, ees_param_errors_nil, (params_accepted_iff s expected_units).
  change (expected_units.*1) with required_params. unfold mandatory_errors.
  rewrite andb_true_iff. tauto.
Qed.

End Acceptance.

Section Outcome.
Context (fmt : Formatter).


(** X1. [validate_input] returns [True] exactly on the objects on which no
    rule of the error bucket fires, and raises on all the others. *)
Theorem validate_input_accepts_iff (m : Machine) :
  ((validate_input fmt m).1 = inr true ↔ accepted (obj m) = true)
  ∧ ((∃ e, (validate_input fmt m).1 = inl e) ↔ accepted (obj m) = false).
Proof.
  assert ((validate_input fmt m).1 = inr true ↔ accepted (obj m) = true) as Hiff.
  { rewrite (accepted_iff fmt), validate_input_run. cbv zeta.
    destruct (units_scan (obj m) expected_units) as [e|]; cbn [fst].
    - split; [discriminate|]. by intros [[=] _].
    - destruct (early_errors fmt (obj m) ++ ees_param_errors fmt (obj m)) eqn:Hall;
        cbn [nonempty_list fst].
      + apply app_nil_iff in Hall as [Hearly Hees]. done.
      + split; [discriminate|]. intros (_ & Hearly & Hees).
        rewrite Hearly, Hees in Hall. discriminate. }
  assert ((validate_input fmt m).1 = inr true ∨ ∃ e, (validate_input fmt m).1 = inl e)
    as Hshape.
  { rewrite validate_input_run. cbv zeta.
    destruct (units_scan (obj m) expected_units) as [e|]; [by eauto|].
    destruct (nonempty_list _); [by eauto|by left]. }
  split; [done|]. split.
  - intros [e He]. destruct (accepted (obj m)); [|done].
    rewrite (proj2 Hiff eq_refl) in He. discriminate.
  - intros Hacc. destruct Hshape as [Hok|Hraise]; [|done].
    apply Hiff in Hok. rewrite Hok in Hacc. discriminate.
Qed.


(** X3. A call calls [print] at most once, and only when it returns: with
    the aggregated notice of the collected warnings, if there is any, which
    is the header, a newline, and the warnings joined by newlines.  A call
    that raises prints nothing, so warnings collected beside errors are not
    shown. *)
Theorem validate_input_prints_once (m : Machine) :
  (∀ e, (validate_input fmt m).1 = inl e →
        stdout (validate_input fmt m).2 = stdout m)
  ∧ (∀ b, (validate_input fmt m).1 = inr b →
          stdout (validate_input fmt m).2
          = stdout m ++ match warnings (issues (validate_input fmt m).2) with
                        | [] => []
                        | _ :: _ => [msg_warnings (warnings (issues (validate_input fmt m).2))]
                        end)
  ∧ msg_warnings ["first"; "second"]
    = "WARNING: Monosynaptic configuration issues:"
      +:+ String (Ascii.ascii_of_nat 10) "first" +:+ String (Ascii.ascii_of_nat 10) "second".
Proof.
  split; [|split; [|reflexivity]]; rewrite validate_input_run; cbv zeta;
    destruct (units_scan (obj m) expected_units) as [e|]; simpl; try done;
    destruct (nonempty_list _); simpl; try done.
  intros b _.
  destruct (all_warnings fmt (obj m)) eqn:Hw; simpl; [by rewrite app_nil_r|done].
Qed.

(** X4. Whatever the outcome, the warnings bucket holds at most two
    entries, in this order: the unexpected neuron types, when a label other
    than ['Ia'] and ['MN'] is defined, and one inhibitory-parameters warning,
    when ['E_inh'] or ['tau_i'] or both are present. *)
Theorem warnings_collected (m : Machine) :
  warnings (issues (validate_input fmt m).2)
  = (if bool_decide (dom (neurons_population (obj m)) ⊆ required_neurons) then []
     else [msg_unexpected_neurons fmt (dom (neurons_population (obj m)) ∖ required_neurons)])
    ++ (if bool_decide (is_Some (biophysical_params (obj m) !! "E_inh")
                        ∨ is_Some (biophysical_params (obj m) !! "tau_i"))
        then [msg_inhibitory] else []).
Proof.
  assert (warnings (issues (validate_input fmt m).2) = all_warnings fmt (obj m)) as ->.
  { rewrite validate_input_run. cbv zeta.
    destruct (units_scan (obj m) expected_units) as [e|]; [done|].
    destruct (nonempty_list _); [done|]. simpl.
    by destruct (nonempty_list (all_warnings fmt (obj m))). }
  unfold all_warnings, neuron_warnings, inhibitory_warnings, unexpected_neurons, nonempty_set.
  f_equal.
  - destruct (decide (dom (neurons_population (obj m)) ⊆ required_neurons)) as [Hsub|Hsub].
    + rewrite (bool_decide_eq_true_2 _ Hsub).
      by rewrite bool_decide_eq_true_2 by by apply subseteq_empty_difference_L.
    + rewrite (bool_decide_eq_false_2 _ Hsub).
      rewrite bool_decide_eq_false_2; [done|].
      intros Hempty. by apply Hsub, empty_difference_subseteq_L.
  - destruct (biophysical_params (obj m) !! "E_inh") as [x|] eqn:Hx,
             (biophysical_params (obj m) !! "tau_i") as [y|] eqn:Hy;
      case_bool_decide as Hd; try done.
    + destruct Hd. left. by eexists.
    + destruct Hd. left. by eexists.
    + destruct Hd. right. by eexists.
    + by destruct Hd as [[? ?]|[? ?]].
Qed.

End Outcome.

(** ** Further properties of [__init__] *)

Section Builder.
Context (fmt : Formatter).

(** A raising call prints nothing, and raises one of three exceptions. *)
Lemma validate_input_raise_shape (m : Machine) (e : exn) :
  (validate_input fmt m).1 = inl e →
  stdout (validate_input fmt m).2 = stdout m
  ∧ (e = AttributeError "dim" ∨ e = AttributeError "unit"
     ∨ ∃ errs, errs ≠ [] ∧ e = ValueError (msg_errors errs)).
Proof.
  rewrite validate_input_run. cbv zeta.
  destruct (units_scan (obj m) expected_units) as [e'|] eqn:Hscan; cbn [fst snd].
  - intros [= <-]. split; [done|].
    destruct (units_scan_stops _ _ _ Hscan); auto.
  - destruct (early_errors fmt (obj m) ++ ees_param_errors fmt (obj m))
      as [|msg rest]; cbn [nonempty_list fst snd]; [discriminate|].
    intros [= <-]. split; [done|]. do 2 right. by exists (msg :: rest).
Qed.

(** The fields of an object that reached line 97. *)
Lemma init_fields_keys (a : Args.t) (s : Monosynaptic) :
  init_fields a = inr s →
  required_neurons ⊆ dom (neurons_population s)
  ∧ ("Ia", "MN") ∈ dom (connections s)
  ∧ is_Some (spindle_model s !! "Ia").
Proof.
  intros Hs. destruct (init_fields_inr a s Hs) as (eleaky & n & _ & Hn & ->). simpl.
  split; [|split].
  - intros label [->%elem_of_singleton | ->%elem_of_singleton]%elem_of_union;
      apply elem_of_dom.
    + destruct (Args.custom_neurons a) as [neurons|]; simpl; [|by eexists].
      destruct (neurons !! "Ia") as [v|] eqn:Hv.
      * exists v. by apply lookup_union_Some_l.
      * exists 410. by rewrite lookup_union_r.
    + by eexists.
  - apply elem_of_dom.
    destruct (Args.custom_connections a) as [given|]; simpl; [|by eexists].
    destruct (given !! ("Ia", "MN")) as [v|] eqn:Hv.
    + exists v. by apply lookup_union_Some_l.
    + eexists. by rewrite lookup_union_r.
  - destruct (Args.custom_spindle a) as [given|]; simpl; [|by eexists].
    destruct (given !! "Ia") as [v|] eqn:Hv.
    + exists v. by apply lookup_union_Some_l.
    + eexists. by rewrite lookup_union_r.
Qed.

(** X5. For integer neuron counts, construction that raises has printed
    nothing and raises one of four exceptions: [KeyError('Eleaky')] from
    line 81, when the biophysical parameters in force have no ['Eleaky'];
    [AttributeError] from [value.dim] or from [value.unit] in the units
    loop; or the [ValueError] that lists at least one error. *)
Theorem init_raises_only (a : Args.t) (out : list string) (e : exn) :
  (__init__ fmt a out).1 = inl e →
  (__init__ fmt a out).2 = out
  ∧ ((e = KeyError "Eleaky"
      ∧ or_default (Args.biophysical_params a) default_biophysical_params !! "Eleaky" = None)
     ∨ e = AttributeError "dim"
     ∨ e = AttributeError "unit"
     ∨ ∃ errs, errs ≠ [] ∧ e = ValueError (msg_errors errs)).
Proof.
  unfold __init__. destruct (init_fields a) as [e'|s] eqn:Hfields; cbn [fst snd].
  - intros [= <-]. split; [done|]. left.
    unfold init_fields, getitem in Hfields.
    change (BiologicalSystem.biophysical_params (init_super a))
      with (or_default (Args.biophysical_params a) default_biophysical_params) in Hfields.
    destruct (or_default _ _ !! "Eleaky"); [|by injection Hfields as <-].
    destruct (population_has_MN (Args.custom_neurons a)) as (n & Hn & _).
    rewrite Hn in Hfields. discriminate.
  - pose proof (validate_input_raise_shape (mkMachine s (mkIssues [] []) out)) as Hshape.
    destruct (validate_input fmt _) as [[e'|b] m']; cbn [fst snd] in *; [|discriminate].
    intros [= <-]. destruct (Hshape e' eq_refl) as [Hout Hkind]. split; [done|by right].
Qed.

(** X6. When the biophysical parameters in force have no ['Eleaky'],
    construction raises [KeyError('Eleaky')] at line 81, before validation
    and whatever the other arguments, a given [custom_initial_potentials]
    included: the validator's message for a missing ['Eleaky'] cannot come
    out of a constructor call. *)
Theorem missing_Eleaky_raises_KeyError (a : Args.t) (out : list string) :
  or_default (Args.biophysical_params a) default_biophysical_params !! "Eleaky" = None →
  __init__ fmt a out = (inl (KeyError "Eleaky"), out).
Proof.
  intros Hnone. unfold __init__, init_fields, getitem.
  change (BiologicalSystem.biophysical_params (init_super a))
    with (or_default (Args.biophysical_params a) default_biophysical_params).
  by rewrite Hnone.
Qed.

(** X7. An object that reached validation from the constructor has ['Ia']
    and ['MN'] in its population, [(Ia, MN)] among its connection keys and
    ['Ia'] in its spindle model, because the overrides only add or overwrite
    keys.  On it the rounds for the required neuron types, the required
    connection and the spindle equation append no error. *)
Theorem built_object_has_required_keys (a : Args.t) (m : Machine) :
  init_fields a = inr (obj m) →
  required_neurons ⊆ dom (neurons_population (obj m))
  ∧ ("Ia", "MN") ∈ dom (connections (obj m))
  ∧ is_Some (spindle_model (obj m) !! "Ia")
  ∧ check_connections fmt m = (inr tt, m)
  ∧ check_spindle m = (inr tt, m)
  ∧ (check_neuron_types fmt m).1 = inr tt
  ∧ errors (issues (check_neuron_types fmt m).2) = errors (issues m).
Proof.
  intros Hs. destruct (init_fields_keys a (obj m) Hs) as (Hneurons & Hconnection & Hspindle).
  repeat (split; [done|]).
  rewrite check_connections_run, check_spindle_run, check_neuron_types_run.
  rewrite (proj2 (connection_errors_nil fmt (obj m)) Hconnection).
  rewrite (proj2 (spindle_errors_nil (obj m)) Hspindle).
  rewrite (proj2 (neuron_errors_nil fmt (obj m)) Hneurons).
  rewrite add_findings_nil. repeat split. simpl. by rewrite app_nil_r.
Qed.

(** X8. [custom_connections] and [custom_spindle] are merged into the
    defaults key by key: a key they mention takes the supplied value, the
    default [(Ia, MN)] connection and ['Ia'] equation included, and every
    other key keeps its default. *)
Theorem custom_connections_and_spindle_merge (a : Args.t) (s : Monosynaptic) :
  init_fields a = inr s →
  (∀ given, Args.custom_connections a = Some given →
     (∀ key value, given !! key = Some value → connections s !! key = Some value)
     ∧ (∀ key, given !! key = None → connections s !! key = default_connections !! key))
  ∧ (Args.custom_connections a = None → connections s = default_connections)
  ∧ (∀ given, Args.custom_spindle a = Some given →
       (∀ key value, given !! key = Some value → spindle_model s !! key = Some value)
       ∧ (∀ key, given !! key = None →
            spindle_model s !! key = default_spindle_model !! key))
  ∧ (Args.custom_spindle a = None → spindle_model s = default_spindle_model).
Proof.
  intros Hs. destruct (init_fields_inr a s Hs) as (eleaky & n & _ & _ & ->). simpl.
  split; [|split; [|split]].
  - intros given ->. simpl. split.
    + intros key value Hkey. by apply lookup_union_Some_l.
    + intros key Hkey. by rewrite lookup_union_r.
  - by intros ->.
  - intros given ->. simpl. split.
    + intros key value Hkey. by apply lookup_union_Some_l.
    + intros key Hkey. by rewrite lookup_union_r.
  - by intros ->.
Qed.

(** X9. [custom_initial_potentials] and
    [custom_initial_condition_spike_activation] are not merged: when given,
    each becomes the field as it is, so a key or a record it leaves out is
    absent.  When no initial potentials are given, the one entry ['MN'] is
    the ['Eleaky'] of the biophysical parameters in force, the caller's if
    supplied. *)
Theorem initial_state_overrides_replace (a : Args.t) (s : Monosynaptic) :
  init_fields a = inr s →
  (∀ potentials, Args.custom_initial_potentials a = Some potentials →
     initial_potentials s = potentials)
  ∧ (Args.custom_initial_potentials a = None →
     ∃ eleaky,
       or_default (Args.biophysical_params a) default_biophysical_params !! "Eleaky"
       = Some eleaky
       ∧ initial_potentials s = {[ "MN" := eleaky ]})
  ∧ (∀ state, Args.custom_initial_condition_spike_activation a = Some state →
       initial_condition_spike_activation s = state).
Proof.
  intros Hs. destruct (init_fields_inr a s Hs) as (eleaky & n & Heleaky & _ & ->). simpl.
  split; [|split].
  - by intros potentials ->.
  - intros ->. by exists eleaky.
  - by intros state ->.
Qed.

(** X10. An entry of the recruitment profile for a neuron type other than
    ['Ia'] and ['MN'] is not validated: its round appends nothing, and with
    or without it, anywhere in the profile and whatever it holds, the
    outcome and the buckets of [validate_input] are the same. *)
Theorem other_neuron_types_ignored (m : Machine) (neuron_type : string)
    (params : gmap string float) (before after : EESProfile) :
  neuron_type ∉ ["Ia"; "MN"] →
  ees_recruitment_profile (obj m) = before ++ after →
  let m' := mkMachine (with_profile (obj m) (before ++ (neuron_type, params) :: after))
                      (issues m) (stdout m) in
  check_ees_entry fmt neuron_type params m = (inr tt, m)
  ∧ (validate_input fmt m').1 = (validate_input fmt m).1
  ∧ issues (validate_input fmt m').2 = issues (validate_input fmt m).2.
Proof.
  intros Hother Hprofile m'. split.
  - rewrite check_ees_entry_run. unfold ees_entry_errors.
    rewrite bool_decide_eq_false_2 by done. apply f_equal, add_findings_nil.
  - assert (∀ key, key ∈ ["Ia"; "MN"] →
                   has_key key (before ++ (neuron_type, params) :: after)
                   = has_key key (before ++ after)) as Hkey.
    { intros key Hin. unfold has_key. rewrite !existsb_app. simpl.
      rewrite (bool_decide_eq_false_2 (neuron_type = key)); [done|].
      intros ->. by apply Hother. }
    assert (early_errors fmt (obj m') = early_errors fmt (obj m)
            ∧ all_warnings fmt (obj m') = all_warnings fmt (obj m)
            ∧ units_scan (obj m') expected_units = units_scan (obj m) expected_units
            ∧ ees_param_errors fmt (obj m') = ees_param_errors fmt (obj m))
      as (Hearly & Hwarn & Hscan & Hees).
    { repeat split.
      - unfold early_errors. f_equal. do 3 f_equal.
        unfold ees_type_errors. simpl flat_map.
        change (ees_recruitment_profile (obj m'))
          with (before ++ (neuron_type, params) :: after).
        rewrite Hprofile, !Hkey; [done|..].
        + apply list_elem_of_further, list_elem_of_here.
        + apply list_elem_of_here.
      - unfold ees_param_errors.
        change (ees_recruitment_profile (obj m'))
          with (before ++ (neuron_type, params) :: after).
        rewrite Hprofile, !flat_map_app. simpl. unfold ees_entry_errors at 2.
        by rewrite bool_decide_eq_false_2 by done. }
    rewrite !validate_input_run. cbv zeta. rewrite Hearly, Hwarn, Hscan, Hees.
    destruct (units_scan (obj m) expected_units) as [e|]; [done|].
    destruct (nonempty_list _); [done|]. simpl.
    by destruct (nonempty_list (all_warnings fmt (obj m))).
Qed.

(** [Monosynaptic(custom_neurons=neurons)], whatever [neurons] holds. *)
Lemma custom_neurons_constructs (neurons : gmap string Z) (out : list string) :
  ∃ s n,
    init_fields (call_custom_neurons neurons) = inr s
    ∧ neurons_population s = neurons ∪ default_neurons_population
    ∧ neurons_population s !! "MN" = Some n
    ∧ initial_condition_spike_activation s = [ replicate (Z.to_nat n) zero_activation ]
    ∧ __init__ fmt (call_custom_neurons neurons) out
      = (inr s,
         out ++ (if bool_decide (dom neurons ⊆ required_neurons) then []
                 else [msg_warnings
                         [msg_unexpected_neurons fmt (dom neurons ∖ required_neurons)]])).
Proof.
  destruct (init_fields_total (call_custom_neurons neurons)) as [s Hs]; [by eexists|].
  destruct (init_fields_inr _ s Hs) as (eleaky & n & _ & Hn & Hshape).
  destruct (init_fields_keys _ s Hs) as (Hneurons & _ & _).
  exists s, n. split; [done|]. split; [by rewrite Hshape|].
  split; [by rewrite Hshape|]. split; [by rewrite Hshape|].
  assert (unexpected_neurons s = dom neurons ∖ required_neurons) as Hunexpected.
  { unfold unexpected_neurons. rewrite Hshape. simpl. rewrite dom_union_L.
    change (dom default_neurons_population) with required_neurons.
    apply set_eq. intros label. rewrite !elem_of_difference, elem_of_union. tauto. }
  assert (all_warnings fmt s
          = if bool_decide (dom neurons ⊆ required_neurons) then []
            else [msg_unexpected_neurons fmt (dom neurons ∖ required_neurons)]) as Hwarn.
  { unfold all_warnings, neuron_warnings, nonempty_set. rewrite Hunexpected.
    assert (inhibitory_warnings s = []) as -> by (rewrite Hshape; vm_compute; reflexivity).
    rewrite app_nil_r.
    destruct (decide (dom neurons ⊆ required_neurons)) as [Hsub|Hsub].
    - rewrite (bool_decide_eq_true_2 _ Hsub).
      by rewrite bool_decide_eq_true_2 by by apply subseteq_empty_difference_L.
    - rewrite (bool_decide_eq_false_2 _ Hsub).
      rewrite bool_decide_eq_false_2; [done|].
      intros Hempty. by apply Hsub, empty_difference_subseteq_L. }
  unfold __init__. rewrite Hs, validate_input_run. cbv zeta. cbn [obj stdout].
  assert (units_scan s expected_units = None) as ->
    by (rewrite Hshape; vm_compute; reflexivity).
  assert (ees_param_errors fmt s = []) as ->
    by (rewrite Hshape; vm_compute; reflexivity).
  assert (early_errors fmt s = []) as ->.
  { unfold early_errors. rewrite (proj2 (neuron_errors_nil fmt s) Hneurons).
    rewrite Hshape. vm_compute. reflexivity. }
  rewrite Hwarn. cbn [app nonempty_list].
  destruct (bool_decide (dom neurons ⊆ required_neurons)); cbn [nonempty_list obj stdout];
    [by rewrite app_nil_r|done].
Qed.

(** X11. With the other arguments defaulted and integer counts,
    construction with [custom_neurons] succeeds: the object is built with
    the merged population, and when [custom_neurons] names a label other
    than ['Ia'] and ['MN'] there is one call of [print], with the notice
    whose one warning lists those labels; otherwise nothing is printed. *)
Theorem custom_neurons_only_warn (neurons : gmap string Z) (out : list string) :
  ∃ s,
    __init__ fmt (call_custom_neurons neurons) out
    = (inr s,
       out ++ (if bool_decide (dom neurons ⊆ required_neurons) then []
               else [msg_warnings
                       [msg_unexpected_neurons fmt (dom neurons ∖ required_neurons)]]))
    ∧ neurons_population s = neurons ∪ default_neurons_population.
Proof.
  destruct (custom_neurons_constructs neurons out) as (s & n & _ & Hpop & _ & _ & Hcall).
  by exists s.
Qed.

(** X12. Neuron counts are not validated: for every integer [n], zero and
    negative ones included, [Monosynaptic(custom_neurons={"MN": n})] is built
    without error or warning, with ['MN'] at [n] and [max 0 n] zero records in
    the initial activation state, none when [n <= 0]. *)
Theorem neuron_counts_not_validated (n : Z) (out : list string) :
  ∃ s,
    __init__ fmt (call_custom_neurons {[ "MN" := n ]}) out = (inr s, out)
    ∧ neurons_population s = {[ "Ia" := 410; "MN" := n ]}
    ∧ initial_condition_spike_activation s = [ replicate (Z.to_nat n) zero_activation ]
    ∧ (n ≤ 0 → initial_condition_spike_activation s = [ [] ]).
Proof.
  destruct (custom_neurons_constructs {[ "MN" := n ]} out)
    as (s & n' & _ & Hpop & Hn & Hstate & Hcall).
  assert (({[ "MN" := n ]} : gmap string Z) ∪ default_neurons_population
          = {[ "Ia" := 410; "MN" := n ]}) as Hmerged.
  { apply map_eq. intros key. unfold default_neurons_population.
    destruct (decide (key = "MN")) as [->|Hmn].
    - by rewrite (lookup_union_Some_l _ _ _ n) by apply lookup_singleton_eq.
    - rewrite lookup_union_r by by apply lookup_singleton_ne.
      destruct (decide (key = "Ia")) as [->|Hia]; [done|].
      by rewrite !lookup_insert_ne, !lookup_singleton_ne by done. }
  rewrite Hmerged in Hpop.
  assert (n' = n) as ->.
  { rewrite Hpop in Hn. by injection Hn. }
  exists s. split.
  - rewrite Hcall. rewrite bool_decide_eq_true_2; [by rewrite app_nil_r|].
    rewrite dom_singleton_L. unfold required_neurons.
    intros label ->%elem_of_singleton. apply elem_of_union. right.
    by apply elem_of_singleton.
  - repeat split; try done. intros Hn0. rewrite Hstate.
    by replace (Z.to_nat n) with 0%nat by lia.
Qed.

End Builder.

(** Two muscles: the fourth kind of exception. *)
Lemma init_raises_only_witness :
  (__init__ sample_fmt (call_muscles_names ["soleus_r"; "tibialis_r"]) []).2 = []
  ∧ ((ValueError (msg_errors [msg_muscle_count]) = KeyError "Eleaky"
      ∧ or_default (Args.biophysical_params
                      (call_muscles_names ["soleus_r"; "tibialis_r"]))
                   default_biophysical_params !! "Eleaky" = None)
     ∨ ValueError (msg_errors [msg_muscle_count]) = AttributeError "dim"
     ∨ ValueError (msg_errors [msg_muscle_count]) = AttributeError "unit"
     ∨ ∃ errs, errs ≠ [] ∧ ValueError (msg_errors [msg_muscle_count])
                            = ValueError (msg_errors errs)).
Proof.
  apply (init_raises_only sample_fmt (call_muscles_names ["soleus_r"; "tibialis_r"]) []
           (ValueError (msg_errors [msg_muscle_count]))).
  vm_compute. reflexivity.
Defined.


(** No ['Eleaky'] among the parameters, initial potentials given all the
    same. *)
Lemma missing_Eleaky_raises_KeyError_witness :
  __init__ sample_fmt
    (call_params_and_potentials (delete "Eleaky" default_biophysical_params)
                                {[ "MN" := (-65) *u mV ]}) []
  = (inl (KeyError "Eleaky"), []).
Proof.
  apply (missing_Eleaky_raises_KeyError sample_fmt).
  vm_compute. reflexivity.
Defined.

(** [Monosynaptic(custom_connections={("Ia", "Ib"): ...})]: the default
    connection is still there and its round appends nothing. *)
Lemma built_object_has_required_keys_witness :
  check_connections sample_fmt
    (fresh (mkMonosynaptic
              (init_super (call_custom_connections
                 {[ ("Ia", "Ib") := mkConnection (mkQuantity 1 nS) 0.5%float ]}))
              default_neurons_population
              ({[ ("Ia", "Ib") := mkConnection (mkQuantity 1 nS) 0.5%float ]}
               ∪ default_connections)
              default_spindle_model {[ "MN" := (-70) *u mV ]}
              [ replicate 500%nat zero_activation ]))
  = (inr tt,
     fresh (mkMonosynaptic
              (init_super (call_custom_connections
                 {[ ("Ia", "Ib") := mkConnection (mkQuantity 1 nS) 0.5%float ]}))
              default_neurons_population
              ({[ ("Ia", "Ib") := mkConnection (mkQuantity 1 nS) 0.5%float ]}
               ∪ default_connections)
              default_spindle_model {[ "MN" := (-70) *u mV ]}
              [ replicate 500%nat zero_activation ])).
Proof.
  refine (proj1 (proj2 (proj2 (proj2
            (built_object_has_required_keys sample_fmt
               (call_custom_connections
                  {[ ("Ia", "Ib") := mkConnection (mkQuantity 1 nS) 0.5%float ]})
               _ _))))).
  vm_compute. reflexivity.
Defined.

(** The same call: the given key and the default key are both there. *)
Lemma custom_connections_and_spindle_merge_witness :
  ∃ s, init_fields (call_custom_connections
                      {[ ("Ia", "Ib") := mkConnection (mkQuantity 1 nS) 0.5%float ]}) = inr s
       ∧ connections s !! ("Ia", "Ib") = Some (mkConnection (mkQuantity 1 nS) 0.5%float)
       ∧ connections s !! ("Ia", "MN") = default_connections !! ("Ia", "MN").
Proof.
  destruct (init_fields_total (call_custom_connections
              {[ ("Ia", "Ib") := mkConnection (mkQuantity 1 nS) 0.5%float ]}))
    as [s Hs]; [by eexists|].
  exists s. split; [exact Hs|].
  destruct (proj1 (custom_connections_and_spindle_merge _ s Hs) _ eq_refl) as [Hgiven Hother].
  split; [by apply Hgiven|by apply Hother].
Defined.

(** Initial potentials given without an ['MN'] entry: none is added. *)
Lemma initial_state_overrides_replace_witness :
  ∃ s, init_fields (call_params_and_potentials default_biophysical_params
                      {[ "Ia" := (-60) *u mV ]}) = inr s
       ∧ initial_potentials s = {[ "Ia" := (-60) *u mV ]}.
Proof.
  destruct (init_fields_total (call_params_and_potentials default_biophysical_params
                                 {[ "Ia" := (-60) *u mV ]})) as [s Hs]; [by eexists|].
  exists s. split; [exact Hs|].
  by apply (proj1 (initial_state_overrides_replace _ s Hs)).
Defined.

(** A ['II'] entry with nothing in it, after the default entries. *)
Lemma other_neuron_types_ignored_witness :
  (validate_input sample_fmt
     (fresh (with_profile default_object
               (default_ees_recruitment_profile ++ [("II", ∅)])))).1
  = (validate_input sample_fmt (fresh default_object)).1.
Proof.
  refine (proj1 (proj2 (other_neuron_types_ignored sample_fmt (fresh default_object) "II" ∅
                          default_ees_recruitment_profile [] _ _))).
  - intros [H|H]%elem_of_cons; [discriminate|].
    apply list_elem_of_singleton in H. discriminate.
  - reflexivity.
Defined.

